(** * Conversation Intelligence Engine of the honeypot API

    A shallow embedding of the decision core of [main.py] and
    [backend/database.py]: the intent scorer, the intelligence extractor,
    the stage classifier, the persona selector, the session orchestrator
    ([honeypot_conversation]) and the SQLite bookkeeping it drives.

    Modelling conventions.
    - A Python [str] is a [string]; the scanners work on its [list ascii].
      The model covers ASCII text ([Str.is_ascii]): the character classes
      [\d], [\w], [\s] and [str.lower] are the ASCII restrictions of
      Python's Unicode-aware ones and agree with them on the characters
      below 128 only. A property that turns on how the characters of a
      text are classified is therefore stated for ASCII text.
    - A Python [float] is a binary64 [float] of [PrimFloat], so the scorer's
      running sum rounds exactly as it does in CPython.
    - The regular expressions of the source are written as sequences of
      greedy character-class repetitions and word-boundary assertions and
      run by a backtracking matcher, the way [re] runs them.
    - The outside world (clock, language model, callback sink, random
      choice) is an explicit [Env] argument of each request; a request
      reads the clock once. Database and network failures inside a
      request are not modelled: the SQLite calls always succeed. For
      [save_message] and [save_intelligence] this takes the session to
      have a row in [sessions] ([db.references_session]), as it has in a
      request, where [save_session] runs first; without the row the
      FOREIGN KEY of their tables makes SQLite raise an IntegrityError
      and nothing is written. *)

From Stdlib Require Import PrimFloat.
From Stdlib Require Import Ascii String.
From stdpp Require Import gmap strings list.

#[local] Set Warnings "-inexact-float".

Local Open Scope nat_scope.

(** ** Characters and strings *)

Module Chars.

Definition code (c : ascii) : nat := nat_of_ascii c.

Definition in_range (lo hi : nat) (c : ascii) : bool :=
  (lo <=? code c) && (code c <=? hi).

(** The characters the model covers: the code points below 128. *)
Definition is_ascii (c : ascii) : bool := code c <? 128.

(** [\d] on ASCII text. *)
Definition is_digit (c : ascii) : bool := in_range 48 57 c.

Definition is_upper (c : ascii) : bool := in_range 65 90 c.
Definition is_lower (c : ascii) : bool := in_range 97 122 c.
Definition is_alpha (c : ascii) : bool := is_upper c || is_lower c.

(** [\w] on ASCII text: letters, digits and the underscore. *)
Definition is_word (c : ascii) : bool :=
  is_alpha c || is_digit c || Ascii.eqb c "_".

(** [\s] on ASCII text: TAB, LF, VT, FF, CR, the four separators
    0x1c-0x1f and the space. *)
Definition is_space (c : ascii) : bool :=
  in_range 9 13 c || in_range 28 32 c.

Definition one_of (set : string) (c : ascii) : bool :=
  existsb (Ascii.eqb c) (list_ascii_of_string set).

(** [str.lower] on one ASCII character. *)
Definition lower_char (c : ascii) : ascii :=
  if is_upper c then ascii_of_nat (code c + 32) else c.

End Chars.

Module Str.

Definition chars (s : string) : list ascii := list_ascii_of_string s.
Definition of_chars (l : list ascii) : string := string_of_list_ascii l.

(** [s.isascii()] *)
Definition is_ascii (s : string) : bool := forallb Chars.is_ascii (chars s).

(** [s.lower()] *)
Definition lower (s : string) : string :=
  of_chars (map Chars.lower_char (chars s)).

Fixpoint is_prefix (p s : list ascii) : bool :=
  match p, s with
  | [], _ => true
  | a :: p', b :: s' => Ascii.eqb a b && is_prefix p' s'
  | _ :: _, [] => false
  end.

Fixpoint occurs (needle hay : list ascii) : bool :=
  is_prefix needle hay ||
  match hay with
  | [] => false
  | _ :: hay' => occurs needle hay'
  end.

(** [needle in hay] *)
Definition contains (needle hay : string) : bool :=
  occurs (chars needle) (chars hay).

(** [any(w in s for w in ws)] *)
Definition any_in (ws : list string) (s : string) : bool :=
  existsb (fun w => contains w s) ws.

(** [s.startswith(p)] *)
Definition startswith (p s : string) : bool :=
  is_prefix (chars p) (chars s).

(** [s.split(sep)] for a one-character separator. *)
Fixpoint split_chars (sep : ascii) (cur : list ascii) (s : list ascii)
  : list (list ascii) :=
  match s with
  | [] => [rev cur]
  | c :: s' =>
      if Ascii.eqb c sep then rev cur :: split_chars sep [] s'
      else split_chars sep (c :: cur) s'
  end.

Definition split (sep : ascii) (s : string) : list string :=
  map of_chars (split_chars sep [] (chars s)).

(** [sep.join(l)] *)
Fixpoint join (sep : string) (l : list string) : string :=
  match l with
  | [] => ""
  | [x] => x
  | x :: l' => x +:+ sep +:+ join sep l'
  end.

End Str.

(** ** Regular expressions of the source, as [re] runs them *)

Module Re.

(** One element of a pattern: the assertion [\b], or a character class
    repeated greedily between [lo] and [hi] times ([None]: unbounded). *)
Inductive atom : Type :=
  | Boundary
  | Rep (cls : ascii → bool) (lo : nat) (hi : option nat).

Definition regex := list atom.

Definition Lit (c : ascii) : atom := Rep (Ascii.eqb c) 1 (Some 1).
Definition Opt (cls : ascii → bool) : atom := Rep cls 0 (Some 1).
Definition Plus (cls : ascii → bool) : atom := Rep cls 1 None.

Definition lits (s : string) : regex := map Lit (Str.chars s).

Definition is_word_opt (c : option ascii) : bool :=
  match c with Some c => Chars.is_word c | None => false end.

(** [\b] holds between a word character and a non-word character or an
    end of the text. *)
Definition word_boundary (prev next : option ascii) : bool :=
  xorb (is_word_opt prev) (is_word_opt next).

(** Length of the longest prefix of [s] made of [cls] characters. *)
Fixpoint span_len (cls : ascii → bool) (s : list ascii) : nat :=
  match s with
  | c :: s' => if cls c then S (span_len cls s') else 0
  | [] => 0
  end.

Definition cap (hi : option nat) (n : nat) : nat :=
  match hi with Some h => Nat.min h n | None => n end.

(** The character before position [k] of [s], [prev] being the one
    before position 0. *)
Definition prev_at (prev : option ascii) (s : list ascii) (k : nat)
  : option ascii :=
  match k with 0 => prev | S j => s !! j end.

(** Greedy repetition with backtracking: try [k] repetitions, then
    [k-1], ... down to [lo]; [rest k] matches the remainder of the
    pattern after [k] characters. *)
Fixpoint backtrack (lo : nat) (rest : nat → option nat) (k : nat)
  : option nat :=
  if k <? lo then None
  else match rest k with
       | Some n => Some (k + n)
       | None => match k with
                 | 0 => None
                 | S k' => backtrack lo rest k'
                 end
       end.

(** [match_here r prev s]: the length of the match of [r] at the start
    of [s], [prev] being the character before it. *)
Fixpoint match_here (r : regex) (prev : option ascii) (s : list ascii)
  : option nat :=
  match r with
  | [] => Some 0
  | Boundary :: r' =>
      if word_boundary prev (head s) then match_here r' prev s else None
  | Rep cls lo hi :: r' =>
      backtrack lo
        (fun k => match_here r' (prev_at prev s k) (drop k s))
        (cap hi (span_len cls s))
  end.

(** [re.search(r, s)] as a truth value. *)
Fixpoint search_from (r : regex) (prev : option ascii) (s : list ascii)
  : bool :=
  match match_here r prev s with
  | Some _ => true
  | None =>
      match s with
      | [] => false
      | c :: s' => search_from r (Some c) s'
      end
  end.

Definition search (r : regex) (s : string) : bool :=
  search_from r None (Str.chars s).

(** [re.findall(r, s)] for a pattern that matches no empty string and
    whose only group is the whole match: leftmost matches, scanning
    resumes after each one. [skip] counts the characters of the current
    match still to be passed. *)
Fixpoint findall_from (r : regex) (prev : option ascii) (skip : nat)
  (s : list ascii) : list (list ascii) :=
  match s with
  | [] => []
  | c :: s' =>
      match skip with
      | S k => findall_from r (Some c) k s'
      | 0 =>
          match match_here r prev s with
          | Some (S n) => take (S n) s :: findall_from r (Some c) n s'
          | _ => findall_from r (Some c) 0 s'
          end
      end
  end.

Definition findall (r : regex) (s : string) : list string :=
  map Str.of_chars (findall_from r None 0 (Str.chars s)).

End Re.

(** ** Data model ([main.py], the pydantic models) *)

Record IntelligenceItem : Type := {
  value : string;
  confidence : float;
  extractedAt : Z;
  extractionMethod : string
}.

Record ExtractedIntelligence : Type := {
  bankAccounts : list IntelligenceItem;
  upiIds : list IntelligenceItem;
  phishingLinks : list IntelligenceItem;
  phoneNumbers : list IntelligenceItem;
  suspiciousKeywords : list string
}.

(** [ExtractedIntelligence()] *)
Definition no_intelligence : ExtractedIntelligence :=
  {| bankAccounts := []; upiIds := []; phishingLinks := [];
     phoneNumbers := []; suspiciousKeywords := [] |}.

(** [SCAM_PATTERNS], in the insertion order that [.items()] follows. *)
Definition SCAM_PATTERNS : list (string * list string) :=
  [ ("urgency", ["immediately"; "urgent"; "now"; "today"; "expire"; "limited time"]);
    ("financial", ["bank"; "account"; "upi"; "payment"; "transfer"; "verify"; "suspend"; "block"]);
    ("threats", ["blocked"; "suspended"; "legal action"; "arrest"; "penalty"; "fine"]);
    ("requests", ["share"; "send"; "provide"; "click"; "download"; "install"; "update"]);
    ("impersonation", ["bank"; "government"; "police"; "income tax"; "customs"; "rbi"]);
    ("reward", ["won"; "prize"; "lottery"; "reward"; "cashback"; "free"; "offer"]) ].

Inductive Stage : Type :=
  | HOOK | TRUST_BUILDING | PAYMENT_ASK | CREDENTIAL_REQUEST
  | LINK_DROP | CLOSING | EXPLORATORY.

Inductive Persona : Type :=
  | YOUNG_NAIVE | ELDERLY_CONFUSED | EXCITED_SKEPTICAL | WORRIED_PARENT.

(** ** The patterns handed to [re] *)

Module Patterns.
Import Re Chars.

(** [\d{10,}] *)
Definition long_digits : regex := [Rep is_digit 10 None].

(** [http[s]?://] *)
Definition url_scheme : regex :=
  lits "http" ++ [Opt (Ascii.eqb "s")] ++ lits "://".

(** [[A-Z0-9._%+-]+@[A-Z0-9.-]+\.[A-Z]{2,}] under [re.I] *)
Definition email : regex :=
  [ Plus (fun c => is_alpha c || is_digit c || one_of "._%+-" c);
    Lit "@";
    Plus (fun c => is_alpha c || is_digit c || one_of ".-" c);
    Lit ".";
    Rep is_alpha 2 None ].

(** [\b(\d{9,18})\b] *)
Definition bank : regex := [Boundary; Rep is_digit 9 (Some 18); Boundary].

(** [[\w.-]] *)
Definition handle_char (c : ascii) : bool := is_word c || one_of ".-" c.

(** [([\w.-]+@[\w.-]+)] *)
Definition upi : regex := [Plus handle_char; Lit "@"; Plus handle_char].

(** [(\+?\d{10,13})] *)
Definition phone : regex := [Opt (Ascii.eqb "+"); Rep is_digit 10 (Some 13)].

(** The negated class of the link pattern: anything but [\s], the two
    angle brackets and the two quote characters. *)
Definition link_char (c : ascii) : bool :=
  negb (is_space c || one_of "<>'" c || Ascii.eqb c "034").

(** [(http[s]?://...+)], the dots being the negated class above. *)
Definition link : regex := url_scheme ++ [Plus link_char].

End Patterns.

(** ** Intent scorer *)

(** [min(a, b)] of Python: the first argument unless the second is
    smaller. *)
Definition py_min (a b : float) : float := if (b <? a)%float then b else a.

(** The two nested [for] loops over [SCAM_PATTERNS] of
    [detect_scam_intent], threading [(detected_patterns, score)]. *)
Definition scan_keyword (text_lower category : string)
  (acc : list string * float) (keyword : string) : list string * float :=
  if Str.contains keyword text_lower
  then (acc.1 ++ [category +:+ ":" +:+ keyword], (acc.2 + 0.15)%float)
  else acc.

Definition scan_category (text_lower : string)
  (acc : list string * float) (entry : string * list string)
  : list string * float :=
  fold_left (scan_keyword text_lower entry.1) entry.2 acc.

Definition scan_patterns (text_lower : string) : list string * float :=
  fold_left (scan_category text_lower) SCAM_PATTERNS ([], 0.0%float).

(** One of the three [if re.search(...)] heuristics. *)
Definition heuristic (hit : bool) (inc : float) (tag : string)
  (acc : list string * float) : list string * float :=
  if hit then (acc.1 ++ [tag], (acc.2 + inc)%float) else acc.

(** [(detected_patterns, score)] just before [is_scam] is computed. *)
Definition scored (text : string) : list string * float :=
  let acc := scan_patterns (Str.lower text) in
  let acc := heuristic (Re.search Patterns.long_digits text) 0.2 "phone_number_present" acc in
  let acc := heuristic (Re.search Patterns.url_scheme text) 0.25 "link_present" acc in
  heuristic (Re.search Patterns.email text) 0.15 "email_present" acc.


Definition detect_scam_intent (text : string) : bool * float * list string :=
  let '(detected_patterns, score) := scored text in
  let is_scam := (0.3 <=? score)%float in
  let confidence := py_min score 1.0 in
  (is_scam, confidence, detected_patterns).

(** ** Intelligence extractor *)

(** [any(item.value == v for item in items)] *)
Definition has_value (v : string) (items : list IntelligenceItem) : bool :=
  existsb (fun item => String.eqb (value item) v) items.

(** The body shared by the four extraction loops: append the item built
    from a match unless it is rejected or its value is already stored. *)
Definition store_new (accept : string → bool)
  (make : string → IntelligenceItem)
  (items : list IntelligenceItem) (m : string) : list IntelligenceItem :=
  if accept m && negb (has_value m items) then items ++ [make m] else items.

Definition store_all (accept : string → bool)
  (make : string → IntelligenceItem)
  (found : list string) (items : list IntelligenceItem)
  : list IntelligenceItem :=
  fold_left (store_new accept make) found items.

Definition email_domains : list string :=
  ["gmail"; "yahoo"; "hotmail"; "outlook"; "mail"; "protonmail"; "icloud"].

Definition upi_patterns : list string :=
  ["paytm"; "phonepe"; "gpay"; "upi"; "okaxis"; "ybl"; "okhdfcbank";
   "oksbi"; "axl"; "fakebank"; "bank"].

(** [0.9 if 11 <= len(acc) <= 16 else 0.6] *)
Definition bank_confidence (acc : string) : float :=
  if (11 <=? String.length acc) && (String.length acc <=? 16)
  then 0.9%float else 0.6%float.

Definition bank_item (timestamp : Z) (acc : string) : IntelligenceItem :=
  {| value := acc; confidence := bank_confidence acc;
     extractedAt := timestamp; extractionMethod := "regex_bank" |}.

(** ['.' in upi_lower.split('@')[1]]; a match of the handle pattern
    always has an [@], so the index is in range. *)
Definition domain_has_dot (upi_lower : string) : bool :=
  match Str.split "@" upi_lower !! 1 with
  | Some domain => Str.contains "." domain
  | None => false
  end.

Definition is_email (upi_lower : string) : bool :=
  Str.any_in email_domains upi_lower && domain_has_dot upi_lower.

Definition is_upi (upi : string) : bool :=
  let upi_lower := Str.lower upi in
  Str.any_in upi_patterns upi_lower || negb (is_email upi_lower).

(** [0.95 if any(x in upi_lower for x in upi_patterns[:9]) else 0.8] *)
Definition upi_confidence (upi : string) : float :=
  if Str.any_in (take 9 upi_patterns) (Str.lower upi)
  then 0.95%float else 0.8%float.

Definition upi_item (timestamp : Z) (upi : string) : IntelligenceItem :=
  {| value := upi; confidence := upi_confidence upi;
     extractedAt := timestamp; extractionMethod := "regex_upi" |}.

(** [0.9 if phone.startswith('+') else 0.7] *)
Definition phone_confidence (phone : string) : float :=
  if Str.startswith "+" phone then 0.9%float else 0.7%float.

Definition phone_item (timestamp : Z) (phone : string) : IntelligenceItem :=
  {| value := phone; confidence := phone_confidence phone;
     extractedAt := timestamp; extractionMethod := "regex_phone" |}.

Definition link_item (timestamp : Z) (link : string) : IntelligenceItem :=
  {| value := link; confidence := 1.0%float;
     extractedAt := timestamp; extractionMethod := "regex_url" |}.

(** The keyword loops at the end of [extract_intelligence]. *)
Definition store_keyword (text_lower : string) (kws : list string)
  (keyword : string) : list string :=
  if Str.contains keyword text_lower && negb (bool_decide (keyword ∈ kws))
  then kws ++ [keyword] else kws.

Definition store_keywords (text_lower : string) (kws : list string)
  : list string :=
  fold_left
    (fun kws entry => fold_left (store_keyword text_lower) entry.2 kws)
    SCAM_PATTERNS kws.

(** [extract_intelligence(text, existing)]; [timestamp] is the clock
    reading taken on entry. The Python function appends to [existing] in
    place and returns it, the model returns the updated record. *)
Definition extract_intelligence (timestamp : Z) (text : string)
  (existing : ExtractedIntelligence) : ExtractedIntelligence :=
  {| bankAccounts :=
       store_all (fun _ => true) (bank_item timestamp)
         (Re.findall Patterns.bank text) (bankAccounts existing);
     upiIds :=
       store_all is_upi (upi_item timestamp)
         (Re.findall Patterns.upi text) (upiIds existing);
     phoneNumbers :=
       store_all (fun _ => true) (phone_item timestamp)
         (Re.findall Patterns.phone text) (phoneNumbers existing);
     phishingLinks :=
       store_all (fun _ => true) (link_item timestamp)
         (Re.findall Patterns.link text) (phishingLinks existing);
     suspiciousKeywords :=
       store_keywords (Str.lower text) (suspiciousKeywords existing) |}.

(** ** Stage classifier and persona selector *)

Definition detect_scam_stage (message_count : nat)
  (intelligence : ExtractedIntelligence) (new_message : string) : Stage :=
  let text_lower := Str.lower new_message in
  if (message_count <=? 2) &&
     Str.any_in ["urgent"; "blocked"; "suspended"; "expired"; "alert";
                 "warning"; "attention"] text_lower
  then HOOK
  else if Str.any_in ["bank"; "government"; "police"; "officer";
                      "department"; "official"; "rbi"; "income tax"]
            text_lower
          && (message_count <=? 4)
  then TRUST_BUILDING
  else if Str.any_in ["pay"; "send"; "transfer"; "amount"; "fee";
                      "penalty"; "fine"; "deposit"; "rupees"; "rs"]
            text_lower
  then PAYMENT_ASK
  else if Str.any_in ["share"; "provide"; "enter"; "otp"; "password";
                      "cvv"; "pin"; "card number"; "details"] text_lower
  then CREDENTIAL_REQUEST
  else if Str.contains "http" text_lower || Str.contains "link" text_lower
          || Str.contains ".com" text_lower
          || Str.contains "click" text_lower
  then LINK_DROP
  else if (0 <? length (bankAccounts intelligence))
          || (0 <? length (upiIds intelligence))
  then CLOSING
  else EXPLORATORY.

Record Metadata : Type := {
  channel : option string;
  language : option string;
  locale : option string
}.

(** [select_persona(scam_patterns, metadata)]; the source never reads
    [metadata]. *)
Definition select_persona (scam_patterns : list string)
  (metadata : option Metadata) : Persona :=
  let patterns_str :=
    match scam_patterns with
    | [] => ""
    | _ => Str.lower (Str.join " " scam_patterns)
    end in
  if Str.any_in ["link"; "download"; "app"; "update"; "install"] patterns_str
  then YOUNG_NAIVE
  else if Str.any_in ["government"; "police"; "tax"; "pension"; "rbi";
                      "customs"; "arrest"] patterns_str
  then ELDERLY_CONFUSED
  else if Str.any_in ["won"; "prize"; "lottery"; "reward"; "winner";
                      "congratulations"] patterns_str
  then EXCITED_SKEPTICAL
  else WORRIED_PARENT.

(** ** Persistence ([backend/database.py])

    The tables of [init_db] with the columns the engine writes; row ids
    and the [CURRENT_TIMESTAMP] columns are left out. A table with a
    one-column key ([PRIMARY KEY], [UNIQUE]) is a [gmap] on that key, the
    others are lists in insertion order. *)

Module db.

Record SessionRow : Type := {
  row_persona : Persona;
  final_stage : Stage;
  row_message_count : nat;
  row_scam_detected : bool;
  row_scam_confidence : float;
  status : string
}.

Record MessageRow : Type := {
  msg_session_id : string;
  msg_sender : string;
  message_text : string
}.

Record IntelRow : Type := {
  intel_session_id : string;
  intel_type : string;
  intel_value : string;
  intel_confidence : float;
  extraction_method : string
}.

Record ScammerRow : Type := {
  identifier_type : string;
  session_count : Z
}.

Record LinkRow : Type := {
  source_identifier : string;
  target_identifier : string;
  link_type : string;
  link_session_id : string
}.

Record Database : Type := {
  sessions : gmap string SessionRow;
  messages : list MessageRow;
  intelligence : list IntelRow;
  scammers : gmap string ScammerRow;
  network_links : list LinkRow
}.

Definition empty : Database :=
  {| sessions := ∅; messages := []; intelligence := [];
     scammers := ∅; network_links := [] |}.

(** [INSERT ... ON CONFLICT(session_id) DO UPDATE] of [save_session]:
    every listed column is overwritten, [status] with ['active']. *)
Definition save_session (session_id : string) (row : SessionRow)
  (d : Database) : Database :=
  {| sessions :=
       <[session_id :=
           {| row_persona := row_persona row;
              final_stage := final_stage row;
              row_message_count := row_message_count row;
              row_scam_detected := row_scam_detected row;
              row_scam_confidence := row_scam_confidence row;
              status := "active" |}]> (sessions d);
     messages := messages d;
     intelligence := intelligence d;
     scammers := scammers d;
     network_links := network_links d |}.

(** [UPDATE sessions SET ..., status = 'completed' WHERE session_id = ?] *)
Definition end_session (session_id : string) (row : SessionRow)
  (d : Database) : Database :=
  {| sessions :=
       alter (fun _ =>
           {| row_persona := row_persona row;
              final_stage := final_stage row;
              row_message_count := row_message_count row;
              row_scam_detected := row_scam_detected row;
              row_scam_confidence := row_scam_confidence row;
              status := "completed" |}) session_id (sessions d);
     messages := messages d;
     intelligence := intelligence d;
     scammers := scammers d;
     network_links := network_links d |}.

(** [FOREIGN KEY (session_id) REFERENCES sessions(session_id)] of the
    [messages] and [intelligence] tables, enforced by [PRAGMA
    foreign_keys=ON]: an insert for [session_id] goes through when the
    session has a row, and raises an IntegrityError that leaves the
    database as it was when it has none. *)
Definition references_session (session_id : string) (d : Database) : bool :=
  bool_decide (is_Some (sessions d !! session_id)).

(** [save_message] for a session that has a row
    ([references_session]). *)
Definition save_message (session_id sender text : string) (d : Database)
  : Database :=
  {| sessions := sessions d;
     messages := messages d ++
       [{| msg_session_id := session_id; msg_sender := sender;
           message_text := text |}];
     intelligence := intelligence d;
     scammers := scammers d;
     network_links := network_links d |}.

(** The upsert on [scammers]: a new identifier starts at
    [session_count = 1], a known one gets [session_count + 1] and keeps
    its [identifier_type]. *)
Definition upsert_scammer (value intel_type : string)
  (t : gmap string ScammerRow) : gmap string ScammerRow :=
  match t !! value with
  | None => <[value := {| identifier_type := intel_type; session_count := 1 |}]> t
  | Some row =>
      <[value := {| identifier_type := identifier_type row;
                    session_count := (session_count row + 1)%Z |}]> t
  end.

(** [save_intelligence] for a session that has a row
    ([references_session]): the [intelligence] table has no [UNIQUE]
    constraint, so its [INSERT OR IGNORE] always inserts; then the
    [scammers] upsert runs. *)
Definition save_intelligence (session_id intel_type value : string)
  (confidence : float) (method : string) (d : Database) : Database :=
  {| sessions := sessions d;
     messages := messages d;
     intelligence := intelligence d ++
       [{| intel_session_id := session_id; intel_type := intel_type;
           intel_value := value; intel_confidence := confidence;
           extraction_method := method |}];
     scammers := upsert_scammer value intel_type (scammers d);
     network_links := network_links d |}.

(** [check_known_scammer] *)
Definition check_known_scammer (value : string) (d : Database)
  : option ScammerRow := scammers d !! value.

(** [UNIQUE(source_identifier, target_identifier, session_id)] *)
Definition same_link (a b session_id : string) (row : LinkRow) : bool :=
  bool_decide (source_identifier row = a) &&
  bool_decide (target_identifier row = b) &&
  bool_decide (link_session_id row = session_id).

(** [INSERT OR IGNORE INTO network_links ... VALUES (?, ?, 'same_session', ?)] *)
Definition insert_link (session_id : string) (links : list LinkRow)
  (p : string * string) : list LinkRow :=
  if existsb (same_link p.1 p.2 session_id) links then links
  else links ++ [{| source_identifier := p.1; target_identifier := p.2;
                    link_type := "same_session";
                    link_session_id := session_id |}].

(** The pairs visited by
    [for i in range(len(ids)): for j in range(i + 1, len(ids))]. *)
Definition index_pairs (identifiers : list string) : list (string * string) :=
  i ← seq 0 (length identifiers);
  j ← seq (S i) (length identifiers - S i);
  [(identifiers !!! i, identifiers !!! j)].

Definition build_network_links (session_id : string)
  (intel_items : list (string * string)) (d : Database) : Database :=
  let identifiers := map fst intel_items in
  {| sessions := sessions d;
     messages := messages d;
     intelligence := intelligence d;
     scammers := scammers d;
     network_links :=
       fold_left (insert_link session_id) (index_pairs identifiers)
         (network_links d) |}.

End db.

(** ** Session orchestrator ([main.py]) *)

Record Message : Type := {
  sender : string;
  text : string;
  timestamp : Z
}.

Inductive CallbackOutcome : Type :=
  | CallbackDelivered (status_code : Z)
  | CallbackFailed (error : string).

(** One entry of the [sessions] dictionary. The free-text and timing
    entries ([created_at], [agent_notes], [typing_timestamps]) are left
    out; [scam_confidence] and [scam_patterns] are absent until the first
    message is scored, [callback_result] stands for [callback_status] /
    [callback_error]. *)
Record Session : Type := {
  conversation_history : list Message;
  intelligence : ExtractedIntelligence;
  scam_detected : bool;
  message_count : nat;
  callback_sent : bool;
  persona : Persona;
  current_stage : Stage;
  scam_confidence : option float;
  scam_patterns : option (list string);
  callback_result : option CallbackOutcome
}.

(** The dictionary built for an unseen session id. *)
Definition new_session : Session :=
  {| conversation_history := [];
     intelligence := no_intelligence;
     scam_detected := false;
     message_count := 0;
     callback_sent := false;
     persona := WORRIED_PARENT;
     current_stage := EXPLORATORY;
     scam_confidence := None;
     scam_patterns := None;
     callback_result := None |}.

(** The in-place updates of the dictionary, one per assignment of the
    source. *)
Definition receive (m : Message) (s : Session) : Session :=
  {| conversation_history := conversation_history s ++ [m];
     intelligence := intelligence s;
     scam_detected := scam_detected s;
     message_count := message_count s + 1;
     callback_sent := callback_sent s;
     persona := persona s;
     current_stage := current_stage s;
     scam_confidence := scam_confidence s;
     scam_patterns := scam_patterns s;
     callback_result := callback_result s |}.

Definition record_reply (m : Message) (s : Session) : Session :=
  {| conversation_history := conversation_history s ++ [m];
     intelligence := intelligence s;
     scam_detected := scam_detected s;
     message_count := message_count s;
     callback_sent := callback_sent s;
     persona := persona s;
     current_stage := current_stage s;
     scam_confidence := scam_confidence s;
     scam_patterns := scam_patterns s;
     callback_result := callback_result s |}.

Definition set_detection (is_scam : bool) (conf : float)
  (patterns : list string) (p : Persona) (s : Session) : Session :=
  {| conversation_history := conversation_history s;
     intelligence := intelligence s;
     scam_detected := is_scam;
     message_count := message_count s;
     callback_sent := callback_sent s;
     persona := p;
     current_stage := current_stage s;
     scam_confidence := Some conf;
     scam_patterns := Some patterns;
     callback_result := callback_result s |}.

Definition set_intelligence (i : ExtractedIntelligence) (s : Session)
  : Session :=
  {| conversation_history := conversation_history s;
     intelligence := i;
     scam_detected := scam_detected s;
     message_count := message_count s;
     callback_sent := callback_sent s;
     persona := persona s;
     current_stage := current_stage s;
     scam_confidence := scam_confidence s;
     scam_patterns := scam_patterns s;
     callback_result := callback_result s |}.

Definition set_current_stage (st : Stage) (s : Session) : Session :=
  {| conversation_history := conversation_history s;
     intelligence := intelligence s;
     scam_detected := scam_detected s;
     message_count := message_count s;
     callback_sent := callback_sent s;
     persona := persona s;
     current_stage := st;
     scam_confidence := scam_confidence s;
     scam_patterns := scam_patterns s;
     callback_result := callback_result s |}.

Definition set_callback (sent : bool) (r : CallbackOutcome) (s : Session)
  : Session :=
  {| conversation_history := conversation_history s;
     intelligence := intelligence s;
     scam_detected := scam_detected s;
     message_count := message_count s;
     callback_sent := sent;
     persona := persona s;
     current_stage := current_stage s;
     scam_confidence := scam_confidence s;
     scam_patterns := scam_patterns s;
     callback_result := Some r |}.

(** The arguments [save_session] and [end_session] read off the
    dictionary; [scam_confidence] defaults to [0.0]. *)
Definition session_row (s : Session) : db.SessionRow :=
  {| db.row_persona := persona s;
     db.final_stage := current_stage s;
     db.row_message_count := message_count s;
     db.row_scam_detected := scam_detected s;
     db.row_scam_confidence := default 0.0%float (scam_confidence s);
     db.status := "" |}.

(** *** The outside world *)

Inductive LlmOutcome : Type :=
  | LlmReply (content : string)   (* status 200, reply already cleaned *)
  | LlmRateLimited                (* status 429 *)
  | LlmHttpError                  (* any other status *)
  | LlmTimeout
  | LlmException.

(** What one request observes of its environment: the clock, the
    outcome of each call to the language model, the line that
    [get_smart_fallback] draws, and the fate of the final callback. *)
Record Env : Type := {
  now : Z;
  llm_attempt : nat → LlmOutcome;
  fallback_reply : string;
  callback : CallbackOutcome
}.

Record Config : Type := {
  API_KEY_SECRET : string;
  GROQ_API_KEY : string
}.

(** *** Reply generation *)

(** [build_agent_prompt], as far as it changes the session: it runs the
    stage classifier and stores the result. The prompt text itself goes
    to the language model only. *)
Definition build_agent_prompt (session_data : Session) (new_message : string)
  : Session :=
  let scam_stage :=
    detect_scam_stage (message_count session_data)
      (intelligence session_data) new_message in
  set_current_stage scam_stage session_data.

Definition max_retries : nat := 2.

(** The [for attempt in range(max_retries)] loop of
    [generate_agent_response], [left] being the number of iterations
    still to run. *)
Fixpoint attempts (env : Env) (left attempt : nat) : string :=
  match left with
  | 0 => fallback_reply env
  | S left' =>
      match llm_attempt env attempt with
      | LlmReply content => content
      | _ =>
          if attempt <? max_retries - 1
          then attempts env left' (S attempt)
          else fallback_reply env
      end
  end.

Definition generate_agent_response (cfg : Config) (env : Env)
  (session_data : Session) (new_message : string) : string * Session :=
  if bool_decide (GROQ_API_KEY cfg = "")
  then (fallback_reply env, session_data)
  else
    let session_data := build_agent_prompt session_data new_message in
    (attempts env max_retries 0, session_data).

(** *** Finalization *)

Definition should_finalize_session (session_data : Session) : bool :=
  let intel := intelligence session_data in
  let message_count := message_count session_data in
  let has_critical_intel :=
    (0 <? length (bankAccounts intel)) ||
    (0 <? length (upiIds intel)) ||
    (0 <? length (phishingLinks intel)) ||
    (1 <? length (phoneNumbers intel)) in
  (15 <=? message_count) || ((8 <=? message_count) && has_critical_intel).

(** The JSON body of the final callback, [agentNotes] left out. *)
Record FinalResultPayload : Type := {
  p_sessionId : string;
  p_scamDetected : bool;
  p_totalMessagesExchanged : nat;
  p_bankAccounts : list string;
  p_upiIds : list string;
  p_phishingLinks : list string;
  p_phoneNumbers : list string;
  p_suspiciousKeywords : list string
}.

Definition final_payload (session_id : string) (session_data : Session)
  : FinalResultPayload :=
  let intel := intelligence session_data in
  {| p_sessionId := session_id;
     p_scamDetected := true;
     p_totalMessagesExchanged := message_count session_data;
     p_bankAccounts := map value (bankAccounts intel);
     p_upiIds := map value (upiIds intel);
     p_phishingLinks := map value (phishingLinks intel);
     p_phoneNumbers := map value (phoneNumbers intel);
     p_suspiciousKeywords := take 20 (suspiciousKeywords intel) |}.

(** [send_final_callback]: the POST goes out and the session records
    whether it got through. *)
Definition send_final_callback (env : Env) (session_id : string)
  (session_data : Session) : FinalResultPayload * Session :=
  (final_payload session_id session_data,
   match callback env with
   | CallbackDelivered code =>
       set_callback true (CallbackDelivered code) session_data
   | CallbackFailed e =>
       set_callback false (CallbackFailed e) session_data
   end).

(** *** The endpoint *)

Record ConversationRequest : Type := {
  x_api_key : option string;
  sessionId : string;
  message : Message;
  metadata : option Metadata
}.

Record AgentResponse : Type := {
  response_status : string;
  reply : string
}.

(** The process-wide state: the in-memory [sessions] dictionary, the
    SQLite database, and the callbacks posted so far. *)
Record World : Type := {
  sessions : gmap string Session;
  database : db.Database;
  callbacks : list FinalResultPayload
}.

Definition initial_world : World :=
  {| sessions := ∅; database := db.empty; callbacks := [] |}.

(** [for item in items: db.save_intelligence(session_id, kind, ...)] *)
Definition save_items (session_id kind : string)
  (items : list IntelligenceItem) (d : db.Database) : db.Database :=
  fold_left
    (fun d item =>
       db.save_intelligence session_id kind (value item) (confidence item)
         (extractionMethod item) d)
    items d.

(** The four loops that follow [extract_intelligence]: they walk the
    whole accumulated set of the session, not just the new items. *)
Definition save_all_intelligence (session_id : string)
  (intel : ExtractedIntelligence) (d : db.Database) : db.Database :=
  let d := save_items session_id "bank_account" (bankAccounts intel) d in
  let d := save_items session_id "upi_id" (upiIds intel) d in
  let d := save_items session_id "phone" (phoneNumbers intel) d in
  save_items session_id "link" (phishingLinks intel) d.

(** [all_items], as [(value, type)] pairs. *)
Definition all_items (intel : ExtractedIntelligence) : list (string * string) :=
  map (fun item => (value item, "bank_account")) (bankAccounts intel) ++
  map (fun item => (value item, "upi_id")) (upiIds intel) ++
  map (fun item => (value item, "phone")) (phoneNumbers intel) ++
  map (fun item => (value item, "link")) (phishingLinks intel).

(** Step 3 of the handler: on the first message, score it and pick the
    persona. *)
Definition first_message_detection (req : ConversationRequest)
  (session_data : Session) : Session :=
  if bool_decide (message_count session_data = 1)
  then
    let '(is_scam, confidence, patterns) :=
      detect_scam_intent (text (message req)) in
    let persona := select_persona patterns (metadata req) in
    set_detection is_scam confidence patterns persona session_data
  else session_data.

(** Step 4: extraction from a scammer message, and the database writes
    that follow it. *)
Definition extraction_step (env : Env) (req : ConversationRequest)
  (session_data : Session) (d : db.Database) : Session * db.Database :=
  if bool_decide (sender (message req) = "scammer")
  then
    let intel :=
      extract_intelligence (now env) (text (message req))
        (intelligence session_data) in
    (set_intelligence intel session_data,
     save_all_intelligence (sessionId req) intel d)
  else (session_data, d).

(** The last block: the finalization gate, the callback, the network
    links and [end_session]. *)
Definition finalization_step (env : Env) (session_id : string)
  (session_data : Session) (d : db.Database)
  (sent : list FinalResultPayload)
  : Session * db.Database * list FinalResultPayload :=
  if scam_detected session_data && negb (callback_sent session_data)
  then
    if should_finalize_session session_data
    then
      let '(payload, session_data) :=
        send_final_callback env session_id session_data in
      let d :=
        db.build_network_links session_id
          (all_items (intelligence session_data)) d in
      let d := db.end_session session_id (session_row session_data) d in
      (session_data, d, sent ++ [payload])
    else (session_data, d, sent)
  else (session_data, d, sent).

(** [honeypot_conversation]: [None] is the 401 raised for a wrong API
    key, before anything is touched. *)
Definition honeypot_conversation (cfg : Config) (env : Env)
  (req : ConversationRequest) (w : World) : option (AgentResponse * World) :=
  if bool_decide (x_api_key req = Some (API_KEY_SECRET cfg))
  then
    let session_id := sessionId req in
    let new_message := text (message req) in
    let session_data := default new_session (sessions w !! session_id) in
    let session_data := receive (message req) session_data in
    let d := db.save_session session_id (session_row session_data) (database w) in
    let d := db.save_message session_id (sender (message req)) new_message d in
    let session_data := first_message_detection req session_data in
    let '(session_data, d) := extraction_step env req session_data d in
    let '(agent_reply, session_data) :=
      generate_agent_response cfg env session_data new_message in
    let session_data :=
      record_reply
        {| sender := "user"; text := agent_reply; timestamp := now env |}
        session_data in
    let '(session_data, d, sent) :=
      finalization_step env session_id session_data d (callbacks w) in
    Some ({| response_status := "success"; reply := agent_reply |},
          {| sessions := <[session_id := session_data]> (sessions w);
             database := d;
             callbacks := sent |})
  else None.

(** *** The simulation endpoint, on the same [sessions] dictionary *)

Record SimulateRequest : Type := {
  sim_sessionId : string;
  scammerMessage : string;
  scenarioName : string
}.

Definition set_scam_confidence (conf : float) (s : Session) : Session :=
  {| conversation_history := conversation_history s;
     intelligence := intelligence s;
     scam_detected := scam_detected s;
     message_count := message_count s;
     callback_sent := callback_sent s;
     persona := persona s;
     current_stage := current_stage s;
     scam_confidence := Some conf;
     scam_patterns := scam_patterns s;
     callback_result := callback_result s |}.

(** Step 1 of [simulate_conversation]: the first message sets the
    detection result and the persona, a later one can only raise the
    stored confidence. *)
Definition simulate_detection (scam_msg : string) (session_data : Session)
  : Session :=
  let '(is_scam, confidence, patterns) := detect_scam_intent scam_msg in
  if bool_decide (message_count session_data = 1)
  then
    set_detection is_scam confidence patterns
      (select_persona patterns None) session_data
  else if (default 0%float (scam_confidence session_data) <? confidence)%float
  then set_scam_confidence confidence session_data
  else session_data.

(** [simulate_conversation]: no API key, no database, no finalization;
    the stage classifier runs on every message, before extraction. *)
Definition simulate_conversation (cfg : Config) (env : Env)
  (req : SimulateRequest) (w : World) : AgentResponse * World :=
  let session_id := "sim-" +:+ sim_sessionId req in
  let scam_msg := scammerMessage req in
  let session_data := default new_session (sessions w !! session_id) in
  let session_data :=
    receive {| sender := "scammer"; text := scam_msg; timestamp := now env |}
      session_data in
  let session_data := simulate_detection scam_msg session_data in
  let stage :=
    detect_scam_stage (message_count session_data)
      (intelligence session_data) scam_msg in
  let session_data := set_current_stage stage session_data in
  let session_data :=
    set_intelligence
      (extract_intelligence (now env) scam_msg (intelligence session_data))
      session_data in
  let '(agent_reply, session_data) :=
    generate_agent_response cfg env session_data scam_msg in
  let session_data :=
    record_reply
      {| sender := "user"; text := agent_reply; timestamp := now env |}
      session_data in
  ({| response_status := "success"; reply := agent_reply |},
   {| sessions := <[session_id := session_data]> (sessions w);
      database := database w;
      callbacks := callbacks w |}).

(** *** Runs of the service *)

Inductive Call : Type :=
  | Honeypot (req : ConversationRequest)
  | Simulate (req : SimulateRequest).

(** The key of [sessions] a call works on. *)
Definition call_session (c : Call) : string :=
  match c with
  | Honeypot req => sessionId req
  | Simulate req => "sim-" +:+ sim_sessionId req
  end.

(** One request served in its environment; a rejected request leaves
    the world as it was. *)
Definition serve (cfg : Config) (w : World) (call : Env * Call) : World :=
  match call.2 with
  | Honeypot req =>
      match honeypot_conversation cfg call.1 req w with
      | Some (_, w') => w'
      | None => w
      end
  | Simulate req => (simulate_conversation cfg call.1 req w).2
  end.

(** Requests served one after the other. *)
Definition run (cfg : Config) (calls : list (Env * Call)) (w : World)
  : World :=
  fold_left (serve cfg) calls w.

(** ** The scorer's signals, for stating its properties *)
















(** ** Blank text *)

(** A text with nothing but whitespace in it, the empty text included. *)
Definition blank (text : string) : bool :=
  forallb Chars.is_space (Str.chars text).

(** [len(intelligence.bankAccounts) > 0 or len(intelligence.upiIds) > 0] *)
Definition holds_payment_id (intelligence : ExtractedIntelligence) : bool :=
  (0 <? length (bankAccounts intelligence))
  || (0 <? length (upiIds intelligence)).

(** ** Standalone digit runs *)

(** [stops r c]: no repetition of [r] can consume the character [c]. *)
Definition stops (r : Re.regex) (c : ascii) : bool :=
  forallb (fun a => match a with
                    | Re.Boundary => true
                    | Re.Rep cls _ _ => negb (cls c)
                    end) r.

Definition digit_run (run : string) : bool :=
  forallb Chars.is_digit (Str.chars run).

(** The ASCII text around a digit run leaves it standing alone: what
    comes just before is neither a word character nor a plus sign, what
    comes just after is no word character. *)
Definition stands_alone (pre post : string) : bool :=
  match last (Str.chars pre) with
  | None => true
  | Some c => negb (Chars.is_word c) && negb (Ascii.eqb c "+")
  end &&
  match head (Str.chars post) with
  | None => true
  | Some c => negb (Chars.is_word c)
  end.

(** ** Network links, for stating their properties *)

(** The row [build_network_links] inserts for a pair. *)
Definition same_session_link (session_id a b : string) : db.LinkRow :=
  {| db.source_identifier := a; db.target_identifier := b;
     db.link_type := "same_session"; db.link_session_id := session_id |}.

(** The identifiers handed to [build_network_links] at finalization. *)
Definition gathered (intel : ExtractedIntelligence) : list string :=
  map fst (all_items intel).

(** The text starts with whitespace or is over. *)
Definition blank_start (s : list ascii) : Prop :=
  match s with [] => True | c :: _ => Chars.is_space c = true end.

(** A word that starts with a non-space character. *)
Definition solid (w : string) : bool :=
  match Str.chars w with [] => false | c :: _ => negb (Chars.is_space c) end.

(** [linked session_id links (a, b)]: the table holds the pair for this
    session, so that inserting it again is ignored. *)
Definition linked (session_id : string) (links : list db.LinkRow)
  (p : string * string) : bool :=
  existsb (db.same_link p.1 p.2 session_id) links.

(** ** Calls and sessions, for stating the orchestrator's properties *)

(** The call gets past the API-key check ([simulate_conversation] has
    none). *)
Definition accepted (cfg : Config) (c : Call) : bool :=
  match c with
  | Honeypot req => bool_decide (x_api_key req = Some (API_KEY_SECRET cfg))
  | Simulate _ => true
  end.

Definition call_text (c : Call) : string :=
  match c with
  | Honeypot req => text (message req)
  | Simulate req => scammerMessage req
  end.

Definition call_metadata (c : Call) : option Metadata :=
  match c with
  | Honeypot req => metadata req
  | Simulate _ => None
  end.

(** The persona the selector draws from the tags the scorer produces
    for the text of a call. *)
Definition first_persona (c : Call) : Persona :=
  select_persona (detect_scam_intent (call_text c)).2 (call_metadata c).

(** The session a request finds: the stored one, or a new one. *)
Definition session_before (w : World) (session_id : string) : Session :=
  default new_session (sessions w !! session_id).

(** The gate of the last block of [honeypot_conversation], [before] being
    the session the request found and [after] the one it leaves. *)
Definition finalization_fires (before after : Session) : bool :=
  scam_detected after && negb (callback_sent before)
  && should_finalize_session after.

(** [has_critical_intel] of [should_finalize_session] *)
Definition has_critical_intel (intel : ExtractedIntelligence) : bool :=
  (0 <? length (bankAccounts intel)) ||
  (0 <? length (upiIds intel)) ||
  (0 <? length (phishingLinks intel)) ||
  (1 <? length (phoneNumbers intel)).

(** ** Sample configurations, environments and calls *)

Definition cfg_without_llm : Config :=
  {| API_KEY_SECRET := "sk_honeypot_2024_secure_key"; GROQ_API_KEY := "" |}.

Definition cfg_with_llm : Config :=
  {| API_KEY_SECRET := "sk_honeypot_2024_secure_key";
     GROQ_API_KEY := "gsk_sample" |}.

(** The language model answers, the callback is delivered. *)
Definition calm_env : Env :=
  {| now := 1700000000000;
     llm_attempt := fun _ => LlmReply "Oh no, what should I do?";
     fallback_reply := "I don't understand sir, what is wrong with my account?";
     callback := CallbackDelivered 200 |}.

(** A scammer message for session [sid], with the right API key. *)
Definition scammer_request (sid msg : string) : ConversationRequest :=
  {| x_api_key := Some "sk_honeypot_2024_secure_key";
     sessionId := sid;
     message := {| sender := "scammer"; text := msg;
                   timestamp := 1700000000000 |};
     metadata := None |}.

Definition scammer_says (sid msg : string) : Env * Call :=
  (calm_env, Honeypot (scammer_request sid msg)).

(** ** Sequences of database writes, for stating how they add up *)

(** The arguments of one [save_intelligence] call. *)
Record SaveCall : Type := {
  save_session_id : string;
  save_type : string;
  save_value : string;
  save_confidence : float;
  save_method : string
}.

Definition save_call (d : db.Database) (c : SaveCall) : db.Database :=
  db.save_intelligence (save_session_id c) (save_type c) (save_value c)
    (save_confidence c) (save_method c) d.

(** [save_intelligence] called for each element of [calls], in order. *)
Definition save_calls (calls : list SaveCall) (d : db.Database) : db.Database :=
  fold_left save_call calls d.

(** Every call is made for a session that has a row in [sessions], so
    that no insert trips the FOREIGN KEY of [intelligence]. *)
Definition sessions_known (calls : list SaveCall) (d : db.Database) : bool :=
  forallb (fun c => db.references_session (save_session_id c) d) calls.

(** The calls that save the identifier [v]. *)
Definition saves_of (v : string) (calls : list SaveCall) : list SaveCall :=
  List.filter (fun c => String.eqb (save_value c) v) calls.


(** A database that knows the session [s1], and three saves for it:
    one handle seen as a payment handle, then as a link, and a phone
    number. *)
Definition one_session_db : db.Database :=
  db.save_session "s1" (session_row new_session) db.empty.

Definition sample_saves : list SaveCall :=
  [ {| save_session_id := "s1"; save_type := "upi_id";
       save_value := "rewards@paytm"; save_confidence := 0.95%float;
       save_method := "regex_upi" |};
    {| save_session_id := "s1"; save_type := "phone";
       save_value := "9876543210"; save_confidence := 0.7%float;
       save_method := "regex_phone" |};
    {| save_session_id := "s1"; save_type := "link";
       save_value := "rewards@paytm"; save_confidence := 1.0%float;
       save_method := "regex_url" |} ].

(** The columns of the [UNIQUE] constraint of [network_links]. *)
Definition link_key (row : db.LinkRow) : string * string * string :=
  (db.source_identifier row, db.target_identifier row,
   db.link_session_id row).

(** [build_network_links] called for each [(session_id, items)], in
    order. *)
Definition build_calls (calls : list (string * list (string * string)))
  (d : db.Database) : db.Database :=
  fold_left (fun d c => db.build_network_links c.1 c.2 d) calls d.

(** ** What one served message does to its session, for stating the
    orchestrator's invariants *)

(** Whether the final callback got through. *)
Definition delivered (o : CallbackOutcome) : bool :=
  match o with CallbackDelivered _ => true | CallbackFailed _ => false end.

(** The payloads posted for one session. *)
Definition callbacks_for (session_id : string) (w : World)
  : list FinalResultPayload :=
  List.filter (fun p => String.eqb (p_sessionId p) session_id) (callbacks w).

(** The text was scored as a scam by [detect_scam_intent]. *)
Definition scored_as_scam (text : string) : bool :=
  (detect_scam_intent text).1.1.

(** ** The stored values of a set, for stating its invariants *)

(** No value is stored twice in a category, no keyword twice. *)
Definition no_duplicates (intel : ExtractedIntelligence) : Prop :=
  NoDup (map value (bankAccounts intel)) ∧
  NoDup (map value (upiIds intel)) ∧
  NoDup (map value (phoneNumbers intel)) ∧
  NoDup (map value (phishingLinks intel)) ∧
  NoDup (suspiciousKeywords intel).

(** * Properties *)

(** ** Intent scorer *)

Section Scorer.














End Scorer.

(** ** Intelligence extractor: deduplication *)

Section Dedup.

Variable accept : string → bool.
Variables make make' : string → IntelligenceItem.
Hypothesis make_value : ∀ m, value (make m) = m.

Lemma has_value_app v items items' :
  has_value v (items ++ items') = has_value v items || has_value v items'.
Proof. unfold has_value. apply existsb_app. Qed.

Lemma has_value_make m : has_value m [make m] = true.
Proof.
  unfold has_value. cbn [existsb]. rewrite make_value.
  by rewrite String.eqb_refl.
Qed.

Lemma store_new_keeps v items m :
  has_value v items = true →
  has_value v (store_new accept make items m) = true.
Proof.
  intros Hv. unfold store_new.
  destruct (accept m && negb (has_value m items)); [|done].
  rewrite has_value_app, Hv. done.
Qed.

Lemma store_all_keeps v found items :
  has_value v items = true →
  has_value v (store_all accept make found items) = true.
Proof.
  revert items. induction found as [|m found IH]; intros items Hv; [done|].
  cbn [store_all fold_left]. apply IH. by apply store_new_keeps.
Qed.

Lemma store_new_stores items m :
  accept m = true → has_value m (store_new accept make items m) = true.
Proof.
  intros Ha. unfold store_new. rewrite Ha. cbn [andb].
  destruct (has_value m items) eqn:Hm; cbn [negb]; [done|].
  rewrite has_value_app, has_value_make. apply orb_true_r.
Qed.

Lemma store_all_stores m found items :
  In m found → accept m = true →
  has_value m (store_all accept make found items) = true.
Proof.
  revert items. induction found as [|x found IH]; intros items Hin Ha; [done|].
  cbn [store_all fold_left]. destruct Hin as [->|Hin].
  - apply store_all_keeps. by apply store_new_stores.
  - by apply IH.
Qed.

End Dedup.

Lemma store_all_settled accept make found items :
  (∀ m, In m found → accept m = true → has_value m items = true) →
  store_all accept make found items = items.
Proof.
  induction found as [|x found IH]; intros Hall; [done|].
  cbn [store_all fold_left].
  assert (Hx : store_new accept make items x = items).
  { unfold store_new. destruct (accept x) eqn:Ha; [|done].
    rewrite (Hall x); [done| by left | done]. }
  rewrite Hx. apply IH. intros m Hm. apply Hall. by right.
Qed.

(** Running a loop again over the same matches stores nothing more,
    whatever the items it would build. *)
Lemma store_all_again accept make make' found items :
  (∀ m, value (make m) = m) →
  store_all accept make' found (store_all accept make found items)
  = store_all accept make found items.
Proof.
  intros Hmake. apply store_all_settled. intros m Hin Ha.
  by apply store_all_stores.
Qed.

Lemma store_keyword_keeps tl kw kws k :
  kw ∈ kws → kw ∈ store_keyword tl kws k.
Proof.
  intros H. unfold store_keyword.
  destruct (_ && _); [|done]. apply elem_of_app. by left.
Qed.

Lemma store_keywords_list_keeps tl kw l kws :
  kw ∈ kws → kw ∈ fold_left (store_keyword tl) l kws.
Proof.
  revert kws. induction l as [|k l IH]; intros kws H; [done|].
  cbn [fold_left]. apply IH. by apply store_keyword_keeps.
Qed.

Lemma store_keywords_list_stores tl kw l kws :
  In kw l → Str.contains kw tl = true →
  kw ∈ fold_left (store_keyword tl) l kws.
Proof.
  revert kws. induction l as [|k l IH]; intros kws Hin Hc; [done|].
  cbn [fold_left]. destruct Hin as [->|Hin]; [|by apply IH].
  apply store_keywords_list_keeps. unfold store_keyword. rewrite Hc.
  cbn [andb]. case_bool_decide; cbn [negb]; [done|].
  apply elem_of_app. right. by apply list_elem_of_singleton.
Qed.

Lemma store_keywords_list_settled tl l kws :
  (∀ kw, In kw l → Str.contains kw tl = true → kw ∈ kws) →
  fold_left (store_keyword tl) l kws = kws.
Proof.
  induction l as [|k l IH]; intros Hall; [done|].
  cbn [fold_left].
  assert (Hk : store_keyword tl kws k = kws).
  { unfold store_keyword. destruct (Str.contains k tl) eqn:Hc; [|done].
    rewrite bool_decide_eq_true_2; [done|]. apply Hall; [by left|done]. }
  rewrite Hk. apply IH. intros kw Hin. apply Hall. by right.
Qed.

Lemma store_entries_keeps tl kw (entries : list (string * list string)) kws :
  kw ∈ kws →
  kw ∈ fold_left (fun kws entry => fold_left (store_keyword tl) entry.2 kws)
         entries kws.
Proof.
  revert kws. induction entries as [|e entries IH]; intros kws H; [done|].
  cbn [fold_left]. apply IH. by apply store_keywords_list_keeps.
Qed.

Lemma store_entries_stores tl kw (entries : list (string * list string)) kws :
  In kw (entries ≫= snd) → Str.contains kw tl = true →
  kw ∈ fold_left (fun kws entry => fold_left (store_keyword tl) entry.2 kws)
         entries kws.
Proof.
  revert kws. induction entries as [|e entries IH]; intros kws Hin Hc;
    [done|].
  rewrite bind_cons in Hin. apply in_app_or in Hin.
  cbn [fold_left]. destruct Hin as [Hin|Hin]; [|by apply IH].
  apply store_entries_keeps. by apply store_keywords_list_stores.
Qed.

Lemma store_entries_settled tl (entries : list (string * list string)) kws :
  (∀ kw, In kw (entries ≫= snd) → Str.contains kw tl = true → kw ∈ kws) →
  fold_left (fun kws entry => fold_left (store_keyword tl) entry.2 kws)
    entries kws = kws.
Proof.
  induction entries as [|e entries IH]; intros Hall; [done|].
  cbn [fold_left]. rewrite store_keywords_list_settled.
  - apply IH. intros kw Hin. apply Hall. rewrite bind_cons.
    apply in_or_app. by right.
  - intros kw Hin. apply Hall. rewrite bind_cons. apply in_or_app. by left.
Qed.

Lemma store_keywords_again tl kws :
  store_keywords tl (store_keywords tl kws) = store_keywords tl kws.
Proof.
  unfold store_keywords at 1. apply store_entries_settled.
  intros kw Hin Hc. by apply store_entries_stores.
Qed.

(** C5. Extraction is idempotent: extracting from the same text again,
    on the set the first extraction returned, stores nothing more in any
    category -- the result is the very same record, item for item,
    whatever the clock reads at the second call. *)
Theorem extract_intelligence_idempotent
  (t1 t2 : Z) (text : string) (S : ExtractedIntelligence) :
  extract_intelligence t2 text (extract_intelligence t1 text S)
  = extract_intelligence t1 text S.
Proof.
  unfold extract_intelligence. cbn [bankAccounts upiIds phoneNumbers
    phishingLinks suspiciousKeywords].
  rewrite !store_all_again by done.
  by rewrite store_keywords_again.
Qed.

(** ** Intelligence extractor: payment handles *)

Lemma findall_paytm :
  Re.findall Patterns.upi "pay to rewards@paytm" = ["rewards@paytm"].
Proof. vm_compute. reflexivity. Qed.

Lemma findall_gmail :
  Re.findall Patterns.upi "contact me at john@gmail.com" = ["john@gmail.com"].
Proof. vm_compute. reflexivity. Qed.

(** C6. From "pay to rewards@paytm" the extractor stores the payment
    handle rewards@paytm with confidence 0.95 (it is new to the set);
    from "contact me at john@gmail.com" it stores no payment handle at
    all, whatever the set holds. *)
Theorem upi_disambiguation (now : Z) (S : ExtractedIntelligence) :
  has_value "rewards@paytm" (upiIds S) = false →
  upiIds (extract_intelligence now "pay to rewards@paytm" S)
  = upiIds S ++ [{| value := "rewards@paytm"; confidence := 0.95%float;
                    extractedAt := now; extractionMethod := "regex_upi" |}]
  ∧ upiIds (extract_intelligence now "contact me at john@gmail.com" S)
    = upiIds S.
Proof.
  intros Hnew. unfold extract_intelligence. cbn [upiIds].
  rewrite findall_paytm, findall_gmail. unfold store_all. cbn [fold_left].
  unfold store_new.
  replace (is_upi "rewards@paytm") with true by (vm_compute; reflexivity).
  replace (is_upi "john@gmail.com") with false by (vm_compute; reflexivity).
  rewrite Hnew. cbn [andb negb]. split; [|done].
  unfold upi_item.
  replace (upi_confidence "rewards@paytm") with 0.95%float
    by (vm_compute; reflexivity).
  done.
Qed.

Lemma upi_disambiguation_witness :
  upiIds (extract_intelligence 1700000000000 "pay to rewards@paytm" no_intelligence)
  = [{| value := "rewards@paytm"; confidence := 0.95%float;
        extractedAt := 1700000000000; extractionMethod := "regex_upi" |}]
  ∧ upiIds (extract_intelligence 1700000000000 "contact me at john@gmail.com"
              no_intelligence) = [].
Proof.
  apply (upi_disambiguation 1700000000000 no_intelligence). reflexivity.
Defined.

(** ** Blank text: nothing to extract, nothing to classify *)

Section Blank.
Import Chars Re.

Lemma space_char c :
  is_space c = true →
  is_digit c = false ∧ Patterns.handle_char c = false ∧
  Ascii.eqb "+" c = false ∧ Ascii.eqb "h" c = false ∧ lower_char c = c.
Proof.
  destruct c as [[] [] [] [] [] [] [] []]; vm_compute; intros H;
    try discriminate H; repeat split.
Qed.

Lemma span_len_blank cls s :
  (∀ c, is_space c = true → cls c = false) →
  blank_start s → span_len cls s = 0.
Proof.
  intros Hcls. destruct s as [|c s]; [done|]. cbn. intros Hc.
  by rewrite (Hcls c Hc).
Qed.

Lemma span_digit_blank s : blank_start s → span_len is_digit s = 0.
Proof. apply span_len_blank. intros c Hc. apply (space_char c Hc). Qed.

Lemma no_bank_at_blank prev s :
  blank_start s → match_here Patterns.bank prev s = None.
Proof.
  intros Hs. unfold Patterns.bank. cbn [match_here].
  rewrite (span_digit_blank s Hs). by destruct (word_boundary _ _).
Qed.

Lemma no_upi_at_blank prev s :
  blank_start s → match_here Patterns.upi prev s = None.
Proof.
  intros Hs. unfold Patterns.upi, Plus. cbn [match_here].
  rewrite (span_len_blank Patterns.handle_char s); [done| |done].
  intros c Hc. apply (space_char c Hc).
Qed.

Lemma no_phone_at_blank prev s :
  blank_start s → match_here Patterns.phone prev s = None.
Proof.
  intros Hs. unfold Patterns.phone, Opt. cbn [match_here].
  rewrite (span_len_blank (Ascii.eqb "+") s); [| |done].
  - change (cap (Some 1) 0) with 0.
    cbn [backtrack Nat.ltb Nat.leb prev_at]. rewrite drop_0.
    cbn [match_here]. by rewrite (span_digit_blank s Hs).
  - intros c Hc. apply (space_char c Hc).
Qed.

Lemma no_link_at_blank prev s :
  blank_start s → match_here Patterns.link prev s = None.
Proof.
  intros Hs. unfold Patterns.link, Patterns.url_scheme, lits, Lit.
  cbn [Str.chars list_ascii_of_string map app match_here].
  rewrite (span_len_blank (Ascii.eqb "h") s); [done| |done].
  intros c Hc. apply (space_char c Hc).
Qed.

Lemma forallb_blank_start s : forallb is_space s = true → blank_start s.
Proof. destruct s; [done|]. cbn. by intros [? _]%andb_prop. Qed.

Lemma findall_from_blank r prev s :
  (∀ prev s, blank_start s → match_here r prev s = None) →
  forallb is_space s = true → findall_from r prev 0 s = [].
Proof.
  intros Hr. revert prev. induction s as [|c s IH]; intros prev Hs; [done|].
  cbn [findall_from]. rewrite Hr by by apply forallb_blank_start.
  apply IH. cbn in Hs. by apply andb_prop in Hs as [_ ?].
Qed.

Lemma findall_blank r text :
  (∀ prev s, blank_start s → match_here r prev s = None) →
  blank text = true → findall r text = [].
Proof.
  intros Hr Hb. unfold findall. by rewrite findall_from_blank.
Qed.

(** [lower] leaves a blank text as it is. *)
Lemma lower_blank text : blank text = true → Str.lower text = text.
Proof.
  unfold blank, Str.lower, Str.of_chars, Str.chars. intros Hb.
  rewrite <- (string_of_list_ascii_of_string text) at 2. f_equal.
  induction (list_ascii_of_string text) as [|c s IH]; [done|].
  cbn in Hb. apply andb_prop in Hb as [Hc Hs]. cbn [map].
  rewrite IH by done. f_equal. apply (space_char c Hc).
Qed.

(** A word that starts with a non-space character occurs in no blank
    text. *)
Lemma occurs_blank w s :
  solid w = true → forallb is_space s = true →
  Str.occurs (Str.chars w) s = false.
Proof.
  unfold solid. destruct (Str.chars w) as [|k ks]; [done|].
  intros Hk%negb_true_iff. induction s as [|c s IH]; [done|].
  cbn [forallb Str.occurs Str.is_prefix]. intros [Hc Hs]%andb_prop.
  rewrite (IH Hs), orb_false_r.
  destruct (Ascii.eqb_spec k c) as [->|]; [congruence|done].
Qed.

Lemma contains_blank w text :
  solid w = true → blank text = true → Str.contains w text = false.
Proof. intros. by apply occurs_blank. Qed.

Lemma any_in_blank ws text :
  forallb solid ws = true → blank text = true → Str.any_in ws text = false.
Proof.
  intros Hws Hb. unfold Str.any_in. induction ws as [|w ws IH]; [done|].
  cbn in Hws. apply andb_prop in Hws as [Hw Hws]. cbn [existsb].
  by rewrite contains_blank, IH.
Qed.

Lemma store_keywords_blank text kws :
  blank text = true → store_keywords text kws = kws.
Proof.
  intros Hb. unfold store_keywords. apply store_entries_settled.
  intros kw Hin Hc. rewrite contains_blank in Hc; [done| |done].
  assert (Hall : forallb solid (SCAM_PATTERNS ≫= snd) = true)
    by (vm_compute; reflexivity).
  rewrite forallb_forall in Hall. by apply Hall.
Qed.

End Blank.

(** C9, as amended. On an empty or whitespace-only text the extractor
    returns the set it was given, unchanged, and the classifier answers
    EXPLORATORY when the session holds no bank account and no payment
    handle, CLOSING when it holds one; both are total functions, so
    neither raises. *)
Theorem blank_text_degrades
  (now : Z) (count : nat) (S : ExtractedIntelligence) (text : string) :
  blank text = true →
  extract_intelligence now text S = S ∧
  detect_scam_stage count S text
  = if holds_payment_id S then CLOSING else EXPLORATORY.
Proof.
  intros Hb. split.
  - unfold extract_intelligence.
    rewrite (findall_blank Patterns.bank), (findall_blank Patterns.upi),
      (findall_blank Patterns.phone), (findall_blank Patterns.link);
      auto using no_bank_at_blank, no_upi_at_blank, no_phone_at_blank,
        no_link_at_blank.
    rewrite (lower_blank text Hb), (store_keywords_blank text _ Hb).
    by destruct S.
  - unfold detect_scam_stage, holds_payment_id.
    rewrite (lower_blank text Hb).
    rewrite !any_in_blank by (done || (vm_compute; reflexivity)).
    rewrite !contains_blank by (done || (vm_compute; reflexivity)).
    by rewrite andb_false_r.
Qed.

Lemma blank_text_degrades_witness :
  let S := extract_intelligence 0 "A/c 123456789012" no_intelligence in
  extract_intelligence 7 "  " S = S ∧ detect_scam_stage 3 S "  " = CLOSING.
Proof.
  apply (blank_text_degrades 7 3
    (extract_intelligence 0 "A/c 123456789012" no_intelligence) "  ").
  reflexivity.
Defined.

(** C9 as stated fails: with a bank account already on the session, the
    empty text is classified CLOSING, not EXPLORATORY. *)
Lemma empty_text_stage_counterexample :
  detect_scam_stage 2
    (extract_intelligence 0 "A/c 123456789012" no_intelligence) ""
  ≠ EXPLORATORY.
Proof. vm_compute. discriminate. Qed.

(** ** The matcher never reads past a character it cannot consume *)

Section Blocked.
Import Re.

Lemma backtrack_ext lo f g k :
  (∀ j, j ≤ k → f j = g j) → backtrack lo f k = backtrack lo g k.
Proof.
  induction k as [|k IH]; intros Hfg; cbn [backtrack].
  - by rewrite (Hfg 0).
  - rewrite (Hfg (S k)) by done. rewrite IH; [done|].
    intros j Hj. apply Hfg. lia.
Qed.

Lemma backtrack_bound lo f k n B :
  backtrack lo f k = Some n →
  (∀ j m, j ≤ k → f j = Some m → j + m ≤ B) → n ≤ B.
Proof.
  induction k as [|k IH]; cbn [backtrack]; intros Hb Hf.
  - destruct (0 <? lo); [done|]. destruct (f 0) as [m|] eqn:E; [|done].
    injection Hb as <-. by apply (Hf 0 m).
  - destruct (S k <? lo); [done|].
    destruct (f (S k)) as [m|] eqn:E.
    + injection Hb as <-. by apply (Hf (S k) m).
    + apply IH; [done|]. intros j m Hj. apply Hf. lia.
Qed.

Lemma span_len_le cls s : span_len cls s ≤ length s.
Proof.
  induction s as [|x s IH]; cbn; [done|]. destruct (cls x); cbn; lia.
Qed.

Lemma span_len_blocked cls a c rest :
  cls c = false →
  span_len cls (a ++ c :: rest) = span_len cls (a ++ [c]) ∧
  span_len cls (a ++ [c]) ≤ length a.
Proof.
  intros Hc. induction a as [|x a [IH1 IH2]]; cbn; rewrite ?Hc; [done|].
  destruct (cls x); [|split; [done|lia]]. rewrite IH1. split; [done|lia].
Qed.

Lemma cap_le hi n : cap hi n ≤ n.
Proof. destruct hi; cbn; lia. Qed.

Lemma prev_at_blocked prev a c rest k :
  k ≤ length a →
  prev_at prev (a ++ c :: rest) k = prev_at prev (a ++ [c]) k.
Proof.
  intros Hk. destruct k as [|j]; [done|]. cbn [prev_at].
  rewrite !lookup_app_l by lia. done.
Qed.

Lemma match_here_blocked r c :
  stops r c = true →
  ∀ prev a rest,
    match_here r prev (a ++ c :: rest) = match_here r prev (a ++ [c]) ∧
    ∀ n, match_here r prev (a ++ [c]) = Some n → n ≤ length a.
Proof.
  induction r as [|[|cls lo hi] r IH]; intros Hstop prev a rest.
  - cbn. split; [done|]. intros n [= <-]. lia.
  - cbn in Hstop. destruct (IH Hstop prev a rest) as [IH1 IH2].
    cbn [match_here].
    assert (Hh : head (a ++ c :: rest) = head (a ++ [c])) by by destruct a.
    rewrite Hh. destruct (word_boundary _ _); [by split|].
    split; [done|]. intros n [=].
  - cbn in Hstop. apply andb_prop in Hstop as [Hc%negb_true_iff Hstop].
    specialize (IH Hstop). cbn [match_here].
    destruct (span_len_blocked cls a c rest Hc) as [Hspan Hle].
    rewrite Hspan. set (k := cap hi (span_len cls (a ++ [c]))).
    assert (Hk : k ≤ length a) by (pose proof (cap_le hi (span_len cls (a ++ [c]))); lia).
    assert (Hdrop : ∀ j tail, j ≤ length a →
              drop j (a ++ c :: tail) = drop j a ++ c :: tail).
    { intros j tail Hj. rewrite drop_app.
      replace (j - length a) with 0 by lia. by rewrite drop_0. }
    split.
    + apply backtrack_ext. intros j Hj.
      rewrite prev_at_blocked by lia.
      rewrite !Hdrop by lia. apply IH.
    + intros n Hn. eapply backtrack_bound; [exact Hn|].
      intros j m Hj Hm. cbn beta in Hm. rewrite Hdrop in Hm by lia.
      apply (proj2 (IH _ _ [])) in Hm. rewrite length_drop in Hm. lia.
Qed.

Lemma findall_from_blocked r c :
  stops r c = true →
  ∀ a prev skip rest,
    skip ≤ length a →
    findall_from r prev skip (a ++ c :: rest)
    = findall_from r prev skip (a ++ [c]) ++ findall_from r (Some c) 0 rest.
Proof.
  intros Hstop. induction a as [|x a IH]; intros prev skip rest Hskip.
  - cbn in Hskip. replace skip with 0 by lia. cbn [app findall_from].
    destruct (match_here_blocked r c Hstop prev [] rest) as [Heq Hn].
    cbn [app] in Heq, Hn. rewrite Heq.
    destruct (match_here r prev [c]) as [[|n]|] eqn:E; try done.
    specialize (Hn _ eq_refl). cbn in Hn. lia.
  - cbn [app findall_from]. destruct skip as [|k].
    + destruct (match_here_blocked r c Hstop prev (x :: a) rest) as [Heq Hn].
      cbn [app] in Heq, Hn. rewrite Heq.
      destruct (match_here r prev (x :: a ++ [c])) as [[|n]|] eqn:E;
        [by apply IH; lia| |by apply IH; lia].
      specialize (Hn _ eq_refl). cbn [length] in Hn.
      rewrite IH by lia. cbn [app]. f_equal.
      change (x :: a ++ c :: rest) with ((x :: a) ++ c :: rest).
      change (x :: a ++ [c]) with ((x :: a) ++ [c]).
      rewrite !take_app_le by (cbn [length]; lia). done.
    + cbn [length] in Hskip. apply IH. lia.
Qed.

End Blocked.

(** ** A standalone digit run is matched whole by both number patterns *)

Section Runs.
Import Chars Re.

Lemma digit_is_word c : is_digit c = true → is_word c = true.
Proof. unfold is_word. intros ->. by rewrite orb_true_r. Qed.

Lemma non_word_non_digit c : is_word c = false → is_digit c = false.
Proof.
  intros Hw. destruct (is_digit c) eqn:Hd; [|done].
  by rewrite (digit_is_word c Hd) in Hw.
Qed.

Lemma digit_not_plus c : is_digit c = true → Ascii.eqb "+" c = false.
Proof.
  intros Hd. destruct (Ascii.eqb_spec "+" c) as [<-|]; [|done].
  by vm_compute in Hd.
Qed.

Lemma non_word_opt_non_digit o :
  is_word_opt o = false →
  match o with Some c => is_digit c = false | None => True end.
Proof. destruct o; [apply non_word_non_digit|done]. Qed.

Lemma span_len_run cls run post :
  forallb cls run = true →
  match head post with Some c => cls c = false | None => True end →
  span_len cls (run ++ post) = length run.
Proof.
  intros Hrun Hpost. induction run as [|d run IH].
  - destruct post as [|c post]; [done|]. cbn in *. by rewrite Hpost.
  - cbn in Hrun. apply andb_prop in Hrun as [Hd Hrun]. cbn.
    by rewrite Hd, IH.
Qed.

Lemma backtrack_first lo f k m :
  lo ≤ k → f k = Some m → backtrack lo f k = Some (k + m).
Proof.
  intros Hlo Hf. destruct k; cbn [backtrack].
  - replace (0 <? lo) with false by (symmetry; apply Nat.ltb_ge; lia).
    by rewrite Hf.
  - replace (S k <? lo) with false by (symmetry; apply Nat.ltb_ge; lia).
    by rewrite Hf.
Qed.

(** The last character of a non-empty digit run is a word character. *)
Lemma prev_at_run prev run post :
  forallb is_digit run = true → run ≠ [] →
  is_word_opt (prev_at prev (run ++ post) (length run)) = true.
Proof.
  intros Hrun Hne. destruct (length run) as [|j] eqn:Hlen.
  - by destruct run.
  - cbn [prev_at]. rewrite lookup_app_l by lia.
    destruct (run !! j) as [d|] eqn:Hd.
    + cbn. apply digit_is_word.
      rewrite forallb_forall in Hrun. apply Hrun.
      apply list_elem_of_In. by eapply list_elem_of_lookup_2.
    + apply lookup_ge_None in Hd. lia.
Qed.

Lemma head_run (run post : list ascii) d run' :
  run = d :: run' → head (run ++ post) = Some d.
Proof. by intros ->. Qed.

Lemma match_bank_run prev run post :
  is_word_opt prev = false →
  forallb is_digit run = true → 9 ≤ length run ≤ 18 →
  is_word_opt (head post) = false →
  match_here Patterns.bank prev (run ++ post) = Some (length run).
Proof.
  intros Hprev Hrun Hlen Hpost.
  assert (Hne : run ≠ []) by (intros ->; cbn in Hlen; lia).
  unfold Patterns.bank. cbn [match_here].
  destruct run as [|d run'] eqn:Erun; [done|]. rewrite <- Erun in *.
  rewrite (head_run run post d run' Erun).
  assert (Hd : is_digit d = true).
  { rewrite Erun in Hrun. cbn in Hrun. by apply andb_prop in Hrun as [? _]. }
  unfold word_boundary at 1. rewrite Hprev. cbn [is_word_opt].
  rewrite (digit_is_word d Hd). cbn [xorb].
  rewrite span_len_run; [|done|by apply non_word_opt_non_digit].
  cbn [cap]. replace (18 `min` length run) with (length run) by lia.
  rewrite (backtrack_first _ _ _ 0); [by rewrite Nat.add_0_r|lia|].
  cbn beta. rewrite drop_app_length.
  unfold word_boundary. rewrite prev_at_run, Hpost by done. done.
Qed.

Lemma match_phone_run prev run post :
  forallb is_digit run = true → 10 ≤ length run ≤ 13 →
  is_word_opt (head post) = false →
  match_here Patterns.phone prev (run ++ post) = Some (length run).
Proof.
  intros Hrun Hlen Hpost.
  unfold Patterns.phone, Opt. cbn [match_here].
  destruct run as [|d run'] eqn:Erun; [cbn in Hlen; lia|].
  rewrite <- Erun in *.
  assert (Hd : is_digit d = true).
  { rewrite Erun in Hrun. cbn in Hrun. by apply andb_prop in Hrun as [? _]. }
  assert (Hplus : span_len (Ascii.eqb "+") (run ++ post) = 0).
  { rewrite Erun. cbn [app span_len]. by rewrite (digit_not_plus d Hd). }
  rewrite Hplus. change (cap (Some 1) 0) with 0.
  cbn [backtrack Nat.ltb Nat.leb prev_at]. rewrite drop_0.
  cbn [match_here].
  rewrite span_len_run; [|done|by apply non_word_opt_non_digit].
  cbn [cap]. replace (13 `min` length run) with (length run) by lia.
  rewrite (backtrack_first _ _ _ 0); [|lia|done].
  by rewrite Nat.add_0_r.
Qed.

Lemma findall_from_hit r prev s n :
  match_here r prev s = Some n → 0 < n ≤ length s →
  take n s ∈ findall_from r prev 0 s.
Proof.
  intros Hm [Hn Hs]. destruct s as [|x s]; [cbn in Hs; lia|].
  cbn [findall_from]. rewrite Hm. destruct n; [lia|]. by left.
Qed.

Lemma findall_from_run r pre run post :
  match last pre with Some c => stops r c = true | None => True end →
  match_here r (last pre) (run ++ post) = Some (length run) →
  run ≠ [] →
  run ∈ findall_from r None 0 (pre ++ run ++ post).
Proof.
  intros Hstop Hm Hne.
  assert (Hhit : run ∈ findall_from r (last pre) 0 (run ++ post)).
  { rewrite <- (take_app_length run post) at 1.
    apply findall_from_hit; [done|].
    rewrite length_app. destruct run; [done|]. cbn. lia. }
  destruct pre as [|c a _] using rev_ind; [done|].
  rewrite last_snoc in Hstop, Hhit, Hm. rewrite <- app_assoc. cbn [app].
  rewrite (findall_from_blocked r c Hstop) by lia.
  apply elem_of_app. by right.
Qed.

Lemma chars_app a b : Str.chars (a +:+ b) = Str.chars a ++ Str.chars b.
Proof.
  unfold Str.chars. induction a as [|x a IH]; [done|].
  change (list_ascii_of_string (String x a +:+ b))
    with (x :: list_ascii_of_string (a +:+ b)).
  by rewrite IH.
Qed.

Lemma chars_length s : length (Str.chars s) = String.length s.
Proof. unfold Str.chars. induction s; cbn; congruence. Qed.

Lemma findall_run r pre run post :
  match last (Str.chars pre) with
  | Some c => stops r c = true
  | None => True
  end →
  match_here r (last (Str.chars pre)) (Str.chars run ++ Str.chars post)
  = Some (String.length run) →
  0 < String.length run →
  In run (findall r (pre +:+ run +:+ post)).
Proof.
  intros Hstop Hm Hlen. apply list_elem_of_In. unfold findall.
  apply list_elem_of_fmap. exists (Str.chars run). split.
  - unfold Str.of_chars, Str.chars.
    by rewrite string_of_list_ascii_of_string.
  - rewrite !chars_app. apply findall_from_run; [done| |].
    + by rewrite chars_length.
    + intros E. rewrite <- chars_length, E in Hlen. cbn in Hlen. lia.
Qed.

End Runs.

(** ** A new match is stored with the item built from it *)

Lemma store_all_extends accept make found items (item : IntelligenceItem) :
  item ∈ items → item ∈ store_all accept make found items.
Proof.
  revert items. induction found as [|x found IH]; intros items Hin; [done|].
  cbn [store_all fold_left]. apply IH. unfold store_new.
  destruct (_ && _); [|done]. apply elem_of_app. by left.
Qed.

Lemma store_all_appends accept make found items m :
  (∀ m, value (make m) = m) →
  In m found → accept m = true → has_value m items = false →
  make m ∈ store_all accept make found items.
Proof.
  intros Hmake. revert items.
  induction found as [|x found IH]; intros items Hin Ha Hnew; [done|].
  cbn [store_all fold_left]. destruct (decide (x = m)) as [->|Hne].
  - apply store_all_extends. unfold store_new. rewrite Ha, Hnew.
    cbn [andb negb]. apply elem_of_app. right.
    by apply list_elem_of_singleton.
  - destruct Hin as [?|Hin]; [done|]. apply IH; [done..|].
    unfold store_new. destruct (_ && _); [|done].
    rewrite has_value_app, Hnew. unfold has_value. cbn [existsb].
    rewrite Hmake. by apply String.eqb_neq in Hne as ->.
Qed.

(** C10. An ASCII text in which a run of 10 to 13 digits stands alone
    (no word character and no plus sign just before it, no word
    character just after it), the run being stored neither as a bank
    account nor as a phone number yet: one call of the extractor stores
    that same digit string twice, as a bank account (confidence 0.9 for
    11 to 13 digits, 0.6 for 10) and as a phone number (confidence
    0.7). *)
Theorem standalone_digits_stored_twice
  (now : Z) (S : ExtractedIntelligence) (pre run post : string) :
  Str.is_ascii (pre +:+ run +:+ post) = true →
  digit_run run = true →
  10 ≤ String.length run ≤ 13 →
  stands_alone pre post = true →
  has_value run (bankAccounts S) = false →
  has_value run (phoneNumbers S) = false →
  let S' := extract_intelligence now (pre +:+ run +:+ post) S in
  {| value := run;
     confidence := if 11 <=? String.length run then 0.9%float else 0.6%float;
     extractedAt := now; extractionMethod := "regex_bank" |}
    ∈ bankAccounts S' ∧
  {| value := run; confidence := 0.7%float;
     extractedAt := now; extractionMethod := "regex_phone" |}
    ∈ phoneNumbers S'.
Proof.
  intros _ Hrun Hlen Halone Hbank Hphone S'.
  unfold digit_run in Hrun. unfold stands_alone in Halone.
  apply andb_prop in Halone as [Hpre Hpost].
  assert (Hpost' : Re.is_word_opt (head (Str.chars post)) = false).
  { destruct (head (Str.chars post)); [|done]. by apply negb_true_iff. }
  assert (Hpre' : Re.is_word_opt (last (Str.chars pre)) = false
                  ∧ match last (Str.chars pre) with
                    | Some c => Chars.is_digit c = false
                                ∧ Ascii.eqb "+" c = false
                    | None => True
                    end).
  { destruct (last (Str.chars pre)) as [c|]; [|done].
    apply andb_prop in Hpre as [Hw%negb_true_iff Hp%negb_true_iff].
    cbn. repeat split; [done|by apply non_word_non_digit|].
    destruct (Ascii.eqb_spec "+" c) as [<-|]; [done|done]. }
  destruct Hpre' as [Hprev Hstops].
  rewrite <- chars_length in Hlen.
  split.
  - replace (if 11 <=? String.length run then 0.9%float else 0.6%float)
      with (bank_confidence run).
    2:{ unfold bank_confidence. rewrite <- chars_length.
        replace (length (Str.chars run) <=? 16) with true
          by (symmetry; apply Nat.leb_le; lia).
        by rewrite andb_true_r. }
    change (bank_item now run ∈ bankAccounts S').
    apply store_all_appends; [done| |done|done].
    apply findall_run.
    + destruct (last (Str.chars pre)); [|done].
      unfold stops, Patterns.bank. cbn [forallb].
      destruct Hstops as [-> _]. done.
    + rewrite <- chars_length. apply match_bank_run; [done|done|lia|done].
    + rewrite <- chars_length. lia.
  - replace 0.7%float with (phone_confidence run).
    2:{ unfold phone_confidence, Str.startswith.
        destruct (Str.chars run) as [|d run'] eqn:E; [cbn in Hlen; lia|].
        cbn in Hrun. apply andb_prop in Hrun as [Hd _].
        cbn [Str.chars list_ascii_of_string Str.is_prefix].
        by rewrite (digit_not_plus d Hd). }
    change (phone_item now run ∈ phoneNumbers S').
    apply store_all_appends; [done| |done|done].
    apply findall_run.
    + destruct (last (Str.chars pre)); [|done].
      unfold stops, Patterns.phone, Re.Opt. cbn [forallb].
      destruct Hstops as [-> ->]. done.
    + rewrite <- chars_length. by apply match_phone_run.
    + rewrite <- chars_length. lia.
Qed.

Lemma standalone_digits_stored_twice_witness :
  let S' := extract_intelligence 5 "call 9876543210 now" no_intelligence in
  {| value := "9876543210"; confidence := 0.6%float;
     extractedAt := 5; extractionMethod := "regex_bank" |} ∈ bankAccounts S' ∧
  {| value := "9876543210"; confidence := 0.7%float;
     extractedAt := 5; extractionMethod := "regex_phone" |} ∈ phoneNumbers S'.
Proof.
  apply (standalone_digits_stored_twice 5 no_intelligence
           "call " "9876543210" " now");
    solve [reflexivity | cbn; lia].
Defined.

(** ** Network linker *)

Section Links.
Import db.

Variable session_id : string.

Lemma insert_link_keeps links p q :
  linked session_id links q = true →
  linked session_id (insert_link session_id links p) q = true.
Proof.
  unfold linked, insert_link. intros Hq.
  destruct (existsb (same_link p.1 p.2 session_id) links); [done|].
  by rewrite existsb_app, Hq.
Qed.

Lemma insert_link_stores links p :
  linked session_id (insert_link session_id links p) p = true.
Proof.
  unfold linked, insert_link.
  destruct (existsb (same_link p.1 p.2 session_id) links) eqn:E; [done|].
  rewrite existsb_app. cbn [existsb]. unfold same_link at 2. cbn.
  rewrite !bool_decide_eq_true_2 by done. by rewrite orb_true_r.
Qed.

Lemma insert_links_keep ps links q :
  linked session_id links q = true →
  linked session_id (fold_left (insert_link session_id) ps links) q = true.
Proof.
  revert links. induction ps as [|p ps IH]; intros links Hq; [done|].
  cbn [fold_left]. apply IH. by apply insert_link_keeps.
Qed.

Lemma insert_links_store ps links q :
  In q ps →
  linked session_id (fold_left (insert_link session_id) ps links) q = true.
Proof.
  revert links. induction ps as [|p ps IH]; intros links Hin; [done|].
  cbn [fold_left]. destruct Hin as [->|Hin]; [|by apply IH].
  apply insert_links_keep, insert_link_stores.
Qed.

Lemma insert_links_settled ps links :
  (∀ q, In q ps → linked session_id links q = true) →
  fold_left (insert_link session_id) ps links = links.
Proof.
  induction ps as [|p ps IH]; intros Hall; [done|]. cbn [fold_left].
  assert (Hp : insert_link session_id links p = links).
  { unfold insert_link. fold (linked session_id links p).
    rewrite Hall; [done|by left]. }
  rewrite Hp. apply IH. intros q Hq. apply Hall. by right.
Qed.

(** Whatever the items and the database, a second [build_network_links]
    for the same session and items changes nothing. *)
Lemma build_network_links_again items d :
  build_network_links session_id items
    (build_network_links session_id items d)
  = build_network_links session_id items d.
Proof.
  unfold build_network_links. cbn [network_links sessions messages
    intelligence scammers]. f_equal.
  apply insert_links_settled. intros q Hq. by apply insert_links_store.
Qed.

Lemma linked_fresh links p :
  Forall (fun row => link_session_id row ≠ session_id) links →
  linked session_id links p = false.
Proof.
  unfold linked. induction 1 as [|row links Hrow _ IH]; [done|].
  cbn [existsb]. rewrite IH, orb_false_r. unfold same_link.
  rewrite (bool_decide_eq_false_2 (link_session_id row = session_id)) by done.
  apply andb_false_r.
Qed.

Lemma linked_snoc links a b p :
  linked session_id (links ++ [same_session_link session_id a b]) p
  = linked session_id links p || bool_decide ((a, b) = p).
Proof.
  unfold linked. rewrite existsb_app. cbn [existsb]. f_equal.
  rewrite orb_false_r. unfold same_link, same_session_link. cbn.
  rewrite (bool_decide_eq_true_2 (session_id = session_id)) by done.
  rewrite andb_true_r. destruct p as [x y]. cbn.
  repeat case_bool_decide; simplify_eq; done.
Qed.

End Links.

(** C4. A session whose gathered items are exactly A, B and C (three
    distinct identifiers), finalized on a database that has no link of
    this session yet: [build_network_links] inserts exactly the three
    rows (A,B), (A,C), (B,C) -- every pair, not just neighbours -- and
    running it a second time for the same session leaves the database as
    it is. *)
Theorem network_links_three
  (session_id A B C : string) (intel : ExtractedIntelligence)
  (d : db.Database) :
  gathered intel = [A; B; C] →
  A ≠ B → A ≠ C → B ≠ C →
  Forall (fun row => db.link_session_id row ≠ session_id)
    (db.network_links d) →
  let d' := db.build_network_links session_id (all_items intel) d in
  db.network_links d'
  = db.network_links d ++
      [same_session_link session_id A B; same_session_link session_id A C;
       same_session_link session_id B C]
  ∧ db.build_network_links session_id (all_items intel) d' = d'.
Proof.
  intros Hitems HAB HAC HBC Hfresh d'. split;
    [|apply build_network_links_again].
  subst d'. unfold db.build_network_links. cbn [db.network_links].
  fold (gathered intel). rewrite Hitems.
  change (db.index_pairs [A; B; C]) with [(A, B); (A, C); (B, C)].
  cbn [fold_left]. unfold db.insert_link at 3.
  fold (linked session_id (db.network_links d) (A, B)).
  rewrite linked_fresh by done. cbn [fst snd].
  fold (same_session_link session_id A B).
  unfold db.insert_link at 2.
  fold (linked session_id
          (db.network_links d ++ [same_session_link session_id A B]) (A, C)).
  rewrite linked_snoc, linked_fresh by done.
  rewrite bool_decide_eq_false_2 by congruence. cbn [orb fst snd].
  fold (same_session_link session_id A C).
  unfold db.insert_link.
  fold (linked session_id
          ((db.network_links d ++ [same_session_link session_id A B])
             ++ [same_session_link session_id A C]) (B, C)).
  rewrite !linked_snoc, linked_fresh by done.
  rewrite !bool_decide_eq_false_2 by congruence. cbn [orb fst snd].
  fold (same_session_link session_id B C).
  by rewrite <- !app_assoc.
Qed.

Lemma network_links_three_witness :
  let intel :=
    extract_intelligence 0
      "send to 123456789 or rewards@paytm via http://pay.example/x"
      no_intelligence in
  let d' := db.build_network_links "s1" (all_items intel) db.empty in
  db.network_links d'
  = [same_session_link "s1" "123456789" "rewards@paytm";
     same_session_link "s1" "123456789" "http://pay.example/x";
     same_session_link "s1" "rewards@paytm" "http://pay.example/x"]
  ∧ db.build_network_links "s1" (all_items intel) d' = d'.
Proof.
  apply (network_links_three "s1" "123456789" "rewards@paytm"
           "http://pay.example/x"
           (extract_intelligence 0
              "send to 123456789 or rewards@paytm via http://pay.example/x"
              no_intelligence)
           db.empty);
    solve [vm_compute; reflexivity | discriminate | constructor].
Defined.

(** ** Session orchestrator: what each step leaves alone *)

Lemma extraction_step_frame env req s d :
  let s' := (extraction_step env req s d).1 in
  persona s' = persona s ∧ message_count s' = message_count s ∧
  scam_detected s' = scam_detected s ∧ callback_sent s' = callback_sent s.
Proof. unfold extraction_step. by case_bool_decide. Qed.

Lemma generate_agent_response_frame cfg env s t :
  let s' := (generate_agent_response cfg env s t).2 in
  persona s' = persona s ∧ message_count s' = message_count s ∧
  scam_detected s' = scam_detected s ∧ callback_sent s' = callback_sent s ∧
  intelligence s' = intelligence s.
Proof. unfold generate_agent_response. by case_bool_decide. Qed.

Lemma finalization_step_frame env sid s d sent :
  let s' := (finalization_step env sid s d sent).1.1 in
  persona s' = persona s ∧ message_count s' = message_count s ∧
  scam_detected s' = scam_detected s ∧ intelligence s' = intelligence s.
Proof.
  unfold finalization_step, send_final_callback.
  destruct (scam_detected s && negb (callback_sent s)); [|done].
  destruct (should_finalize_session s); [|done].
  by destruct (callback env).
Qed.

Lemma first_message_detection_later req s :
  message_count s ≠ 1 → first_message_detection req s = s.
Proof.
  intros H. unfold first_message_detection. by rewrite bool_decide_eq_false_2.
Qed.

Lemma first_message_detection_first req s :
  message_count s = 1 →
  let s' := first_message_detection req s in
  persona s' = first_persona (Honeypot req) ∧ message_count s' = 1.
Proof.
  intros H. unfold first_message_detection, first_persona.
  rewrite bool_decide_eq_true_2 by done. cbn [call_text call_metadata].
  by destruct (detect_scam_intent (text (message req))) as [[? ?] ?].
Qed.

(** The session a served [honeypot_conversation] request leaves: its
    persona is the one found, unless this was the first message, and its
    message count is one more than the one found. *)
Lemma honeypot_conversation_session cfg env req w resp w' :
  honeypot_conversation cfg env req w = Some (resp, w') →
  ∃ after,
    sessions w' = <[sessionId req := after]> (sessions w) ∧
    message_count after
    = message_count (session_before w (sessionId req)) + 1 ∧
    persona after
    = if bool_decide (message_count (session_before w (sessionId req)) = 0)
      then first_persona (Honeypot req)
      else persona (session_before w (sessionId req)).
Proof.
  unfold honeypot_conversation, session_before.
  case_bool_decide as Hkey; [|done].
  set (s0 := default new_session (sessions w !! sessionId req)).
  set (s1 := first_message_detection req (receive (message req) s0)).
  destruct (extraction_step env req s1 _) as [s2 d2] eqn:E2.
  destruct (generate_agent_response cfg env s2 _) as [rep s3] eqn:E3.
  destruct (finalization_step env _ _ d2 _) as [[s5 d5] sent] eqn:E5.
  intros [= _ <-]. exists s5. cbn [sessions]. split; [done|].
  pose proof (extraction_step_frame env req s1
    (db.save_message (sessionId req) (sender (message req))
       (text (message req))
       (db.save_session (sessionId req)
          (session_row (receive (message req) s0)) (database w)))) as F2.
  rewrite E2 in F2. cbn [fst] in F2. destruct F2 as (P2 & M2 & _).
  pose proof (generate_agent_response_frame cfg env s2 (text (message req)))
    as F3.
  rewrite E3 in F3. cbn [snd] in F3. destruct F3 as (P3 & M3 & _).
  match type of E5 with finalization_step ?e ?i ?s ?d ?c = _ =>
    pose proof (finalization_step_frame e i s d c) as F5 end.
  rewrite E5 in F5. cbn [fst persona message_count record_reply] in F5.
  destruct F5 as (P5 & M5 & _).
  rewrite P5, P3, P2, M5, M3, M2. subst s1.
  case_bool_decide as H0.
  - destruct (first_message_detection_first req (receive (message req) s0))
      as [-> ->]; [cbn; lia|]. split; [lia|done].
  - rewrite first_message_detection_later by (cbn; lia). done.
Qed.

(** The same for [simulate_conversation]. *)
Lemma simulate_conversation_session cfg env req w :
  let sid := "sim-" +:+ sim_sessionId req in
  ∃ after,
    sessions (simulate_conversation cfg env req w).2
    = <[sid := after]> (sessions w) ∧
    message_count after = message_count (session_before w sid) + 1 ∧
    persona after
    = if bool_decide (message_count (session_before w sid) = 0)
      then first_persona (Simulate req)
      else persona (session_before w sid).
Proof.
  intros sid. unfold simulate_conversation, session_before. fold sid.
  set (s0 := default new_session (sessions w !! sid)).
  set (m := {| sender := "scammer"; text := scammerMessage req;
               timestamp := now env |}).
  destruct (generate_agent_response cfg env _ _) as [rep s3] eqn:E3.
  eexists. cbn [snd sessions]. split; [done|].
  match type of E3 with generate_agent_response _ _ ?s ?t = _ =>
    pose proof (generate_agent_response_frame cfg env s t) as F3 end.
  rewrite E3 in F3. cbn [snd persona message_count set_intelligence
    set_current_stage] in F3. destruct F3 as (P3 & M3 & _).
  cbn [persona message_count record_reply]. rewrite P3, M3.
  unfold simulate_detection, first_persona. cbn [call_text call_metadata].
  destruct (detect_scam_intent (scammerMessage req)) as [[sc cf] pats].
  cbn [snd]. cbn [receive message_count].
  case_bool_decide as H1; case_bool_decide as H0; try lia.
  - done.
  - destruct (_ <? _)%float; cbn; split; (lia || done).
Qed.

(** ** Persona *)

Lemma honeypot_conversation_accepts cfg env req w :
  x_api_key req = Some (API_KEY_SECRET cfg) →
  is_Some (honeypot_conversation cfg env req w).
Proof.
  intros Hkey. unfold honeypot_conversation.
  rewrite bool_decide_eq_true_2 by done.
  destruct (extraction_step _ _ _ _) as [s2 d2].
  destruct (generate_agent_response _ _ _ _) as [rep s3].
  by destruct (finalization_step _ _ _ _ _) as [[s5 d5] sent].
Qed.

(** Once a session has a message and a persona, no call changes the
    persona, whichever endpoint and session the call is for. *)
Lemma serve_keeps_persona cfg w call k P :
  (∃ s, sessions w !! k = Some s ∧ 1 ≤ message_count s ∧ persona s = P) →
  ∃ s, sessions (serve cfg w call) !! k = Some s
       ∧ 1 ≤ message_count s ∧ persona s = P.
Proof.
  intros (s & Hs & Hm & Hp). destruct call as [env [req|req]];
    unfold serve; cbn [fst snd].
  - destruct (honeypot_conversation cfg env req w) as [[resp w']|] eqn:E;
      [|by exists s].
    apply honeypot_conversation_session in E as (after & Hw' & Hm' & Hp').
    rewrite Hw'. destruct (decide (sessionId req = k)) as [Heq|Hne].
    + rewrite Heq in *. rewrite lookup_insert_eq. exists after.
      split; [done|].
      unfold session_before in Hm', Hp'. rewrite Hs in Hm', Hp'.
      cbn [default from_option id] in Hm', Hp'.
      rewrite bool_decide_eq_false_2 in Hp' by lia. split; [lia|congruence].
    + rewrite lookup_insert_ne by done. by exists s.
  - destruct (simulate_conversation_session cfg env req w)
      as (after & Hw' & Hm' & Hp').
    rewrite Hw'. destruct (decide ("sim-" +:+ sim_sessionId req = k))
      as [Heq|Hne].
    + rewrite Heq in *. rewrite lookup_insert_eq. exists after.
      split; [done|].
      unfold session_before in Hm', Hp'. rewrite Hs in Hm', Hp'.
      cbn [default from_option id] in Hm', Hp'.
      rewrite bool_decide_eq_false_2 in Hp' by lia. split; [lia|congruence].
    + rewrite lookup_insert_ne by done. by exists s.
Qed.

Lemma run_keeps_persona cfg calls w k P :
  (∃ s, sessions w !! k = Some s ∧ 1 ≤ message_count s ∧ persona s = P) →
  ∃ s, sessions (run cfg calls w) !! k = Some s
       ∧ 1 ≤ message_count s ∧ persona s = P.
Proof.
  revert w. induction calls as [|call calls IH]; intros w Hw; [done|].
  unfold run. cbn [fold_left]. apply IH. by apply serve_keeps_persona.
Qed.

(** The first call for a session sets its persona from the tags of that
    call's text. *)
Lemma serve_first_persona cfg env c w :
  sessions w !! call_session c = None → accepted cfg c = true →
  ∃ s, sessions (serve cfg w (env, c)) !! call_session c = Some s
       ∧ 1 ≤ message_count s ∧ persona s = first_persona c.
Proof.
  intros Hnew Hacc. destruct c as [req|req]; unfold serve; cbn [fst snd].
  - cbn in Hacc. apply bool_decide_eq_true in Hacc.
    destruct (honeypot_conversation_accepts cfg env req w Hacc)
      as [[resp w'] E].
    rewrite E.
    apply honeypot_conversation_session in E as (after & Hw' & Hm' & Hp').
    cbn [call_session] in *. rewrite Hw', lookup_insert_eq. exists after.
    unfold session_before in Hm', Hp'. rewrite Hnew in Hm', Hp'.
    cbn in Hm', Hp'. split; [done|]. split; [lia|done].
  - destruct (simulate_conversation_session cfg env req w)
      as (after & Hw' & Hm' & Hp').
    cbn [call_session] in *. rewrite Hw', lookup_insert_eq. exists after.
    unfold session_before in Hm', Hp'. rewrite Hnew in Hm', Hp'.
    cbn in Hm', Hp'. split; [done|]. split; [lia|done].
Qed.

(** C8. The persona of a session is chosen on its first message, from
    the pattern tags the intent scorer produces for that message, and
    never changes afterwards: whatever calls follow -- for this session
    or others, on either endpoint, with whatever texts, keys and
    environments -- the session's persona is still that first choice. *)
Theorem persona_set_once
  (cfg : Config) (env : Env) (c : Call) (calls : list (Env * Call))
  (w : World) :
  sessions w !! call_session c = None →
  accepted cfg c = true →
  persona <$> (sessions (run cfg ((env, c) :: calls) w) !! call_session c)
  = Some (first_persona c).
Proof.
  intros Hnew Hacc. unfold run. cbn [fold_left].
  destruct (run_keeps_persona cfg calls (serve cfg w (env, c))
              (call_session c) (first_persona c)) as (s & Hs & _ & Hp).
  { by apply serve_first_persona. }
  unfold run in Hs. rewrite Hs. cbn. by rewrite Hp.
Qed.

Lemma persona_set_once_witness :
  persona <$>
    (sessions
       (run cfg_with_llm
          [scammer_says "s1" "Congratulations, you won a prize";
           scammer_says "s1" "This is the police, download the app";
           scammer_says "s2" "Income tax department calling"]
          initial_world) !! "s1")
  = Some EXCITED_SKEPTICAL.
Proof.
  apply (persona_set_once cfg_with_llm calm_env
           (scammer_says "s1" "Congratulations, you won a prize").2
           [scammer_says "s1" "This is the police, download the app";
            scammer_says "s2" "Income tax department calling"]
           initial_world); reflexivity.
Defined.

(** ** Finalization *)

Lemma first_message_detection_frame req s :
  let s' := first_message_detection req s in
  callback_sent s' = callback_sent s ∧ message_count s' = message_count s.
Proof.
  unfold first_message_detection. case_bool_decide; [|done].
  by destruct (detect_scam_intent _) as [[? ?] ?].
Qed.

Lemma should_finalize_session_ext s s' :
  intelligence s = intelligence s' → message_count s = message_count s' →
  should_finalize_session s = should_finalize_session s'.
Proof. unfold should_finalize_session. by intros -> ->. Qed.

Lemma final_payload_ext sid s s' :
  intelligence s = intelligence s' → message_count s = message_count s' →
  final_payload sid s = final_payload sid s'.
Proof. unfold final_payload. by intros -> ->. Qed.

Lemma finalization_step_callbacks env sid s d sent :
  (finalization_step env sid s d sent).2
  = if scam_detected s && negb (callback_sent s) && should_finalize_session s
    then sent ++ [final_payload sid s] else sent.
Proof.
  unfold finalization_step, send_final_callback.
  destruct (scam_detected s && negb (callback_sent s)); [|done].
  by destruct (should_finalize_session s).
Qed.

Lemma should_finalize_session_unfold s :
  should_finalize_session s
  = (15 <=? message_count s)
    || (8 <=? message_count s) && has_critical_intel (intelligence s).
Proof. done. Qed.

(** C2, as amended. After every message [honeypot_conversation] serves,
    the final callback is posted exactly when the session's scam-detected
    flag is set, no callback was recorded as sent before, and the
    finalization predicate holds of the session as the message leaves
    it; the predicate holds at message count 15 or more whatever the
    intelligence, holds at 8 or more with at least one bank account,
    payment handle or link or at least two phone numbers, and fails at 7
    or below whatever the intelligence. *)
Theorem finalization_gate
  (cfg : Config) (env : Env) (req : ConversationRequest) (w w' : World)
  (resp : AgentResponse) :
  honeypot_conversation cfg env req w = Some (resp, w') →
  ∃ after,
    sessions w' !! sessionId req = Some after ∧
    callbacks w'
    = (if finalization_fires (session_before w (sessionId req)) after
       then callbacks w ++ [final_payload (sessionId req) after]
       else callbacks w) ∧
    (15 ≤ message_count after → should_finalize_session after = true) ∧
    (8 ≤ message_count after →
     has_critical_intel (intelligence after) = true →
     should_finalize_session after = true) ∧
    (message_count after ≤ 7 → should_finalize_session after = false).
Proof.
  unfold honeypot_conversation, session_before.
  case_bool_decide as Hkey; [|done].
  set (s0 := default new_session (sessions w !! sessionId req)).
  set (s1 := first_message_detection req (receive (message req) s0)).
  destruct (extraction_step env req s1 _) as [s2 d2] eqn:E2.
  destruct (generate_agent_response cfg env s2 _) as [rep s3] eqn:E3.
  destruct (finalization_step env _ _ d2 _) as [[s5 d5] sent] eqn:E5.
  intros [= _ <-]. exists s5. cbn [sessions callbacks].
  split; [by rewrite lookup_insert_eq|].
  match type of E2 with extraction_step ?e ?r ?s ?d = _ =>
    pose proof (extraction_step_frame e r s d) as F2 end.
  rewrite E2 in F2. cbn [fst] in F2. destruct F2 as (_ & _ & _ & C2).
  pose proof (generate_agent_response_frame cfg env s2 (text (message req)))
    as F3.
  rewrite E3 in F3. cbn [snd] in F3. destruct F3 as (_ & _ & _ & C3 & _).
  match type of E5 with finalization_step ?e ?i ?s ?d ?c = _ =>
    pose proof (finalization_step_frame e i s d c) as F5;
    pose proof (finalization_step_callbacks e i s d c) as G5 end.
  rewrite E5 in F5, G5. cbn [fst snd] in F5, G5.
  destruct F5 as (_ & M5 & S5 & I5).
  destruct (first_message_detection_frame req (receive (message req) s0))
    as [C1 _]. fold s1 in C1.
  split.
  - rewrite G5. unfold finalization_fires.
    rewrite <- S5. cbn [callback_sent record_reply].
    rewrite C3, C2, C1. cbn [callback_sent receive].
    rewrite (should_finalize_session_ext s5 _ I5 M5).
    by rewrite (final_payload_ext (sessionId req) s5 _ I5 M5).
  - rewrite should_finalize_session_unfold.
    repeat split.
    + intros H. apply Nat.leb_le in H. by rewrite H.
    + intros H Hc. apply Nat.leb_le in H. rewrite H, Hc. apply orb_true_r.
    + intros H.
      replace (15 <=? message_count s5) with false
        by (symmetry; apply Nat.leb_gt; lia).
      replace (8 <=? message_count s5) with false
        by (symmetry; apply Nat.leb_gt; lia). done.
Qed.

Lemma finalization_gate_witness :
  let msg := "urgent: pay to rewards@paytm" in
  let w7 := run cfg_with_llm (replicate 7 (scammer_says "s1" msg))
              initial_world in
  let w8 := run cfg_with_llm (replicate 8 (scammer_says "s1" msg))
              initial_world in
  ∃ after,
    sessions w8 !! "s1" = Some after ∧
    callbacks w8
    = (if finalization_fires (session_before w7 "s1") after
       then callbacks w7 ++ [final_payload "s1" after]
       else callbacks w7) ∧
    (15 ≤ message_count after → should_finalize_session after = true) ∧
    (8 ≤ message_count after →
     has_critical_intel (intelligence after) = true →
     should_finalize_session after = true) ∧
    (message_count after ≤ 7 → should_finalize_session after = false).
Proof.
  intros msg w7 w8.
  apply (finalization_gate cfg_with_llm calm_env
           (scammer_request "s1" msg) w7 w8
           {| response_status := "success";
              reply := "Oh no, what should I do?" |}).
  vm_compute. reflexivity.
Defined.

(** C2 as stated fails: a session whose first message scores below the
    scam threshold never posts the callback, although the predicate
    holds from message 15 on. *)
Lemma finalization_counterexample :
  let w := run cfg_with_llm (replicate 15 (scammer_says "s1" "hello"))
             initial_world in
  (message_count <$> (sessions w !! "s1")) = Some 15 ∧
  (should_finalize_session <$> (sessions w !! "s1")) = Some true ∧
  callbacks w = [].
Proof. vm_compute. done. Qed.

(** ** Stage bookkeeping *)

Lemma finalization_step_stage env sid s d sent :
  current_stage (finalization_step env sid s d sent).1.1 = current_stage s.
Proof.
  unfold finalization_step, send_final_callback.
  destruct (scam_detected s && negb (callback_sent s)); [|done].
  destruct (should_finalize_session s); [|done].
  by destruct (callback env).
Qed.

(** With a language-model key configured, the stage stored after a
    served message is the classifier's answer for that message, whatever
    the model and the callback do. *)
Lemma stage_stored_with_llm cfg env req w resp w' :
  GROQ_API_KEY cfg ≠ "" →
  honeypot_conversation cfg env req w = Some (resp, w') →
  ∃ after,
    sessions w' !! sessionId req = Some after ∧
    current_stage after
    = detect_scam_stage (message_count after) (intelligence after)
        (text (message req)).
Proof.
  intros Hllm. unfold honeypot_conversation.
  case_bool_decide as Hkey; [|done].
  destruct (extraction_step env req _ _) as [s2 d2] eqn:E2.
  unfold generate_agent_response. rewrite bool_decide_eq_false_2 by done.
  destruct (finalization_step env _ _ d2 _) as [[s5 d5] sent] eqn:E5.
  intros [= _ <-]. exists s5. cbn [sessions].
  split; [by rewrite lookup_insert_eq|].
  match type of E5 with finalization_step ?e ?i ?s ?d ?c = _ =>
    pose proof (finalization_step_frame e i s d c) as F5;
    pose proof (finalization_step_stage e i s d c) as G5 end.
  rewrite E5 in F5, G5. cbn [fst] in F5, G5.
  destruct F5 as (_ & -> & _ & ->). by rewrite G5.
Qed.

(** C1: one session, three scammer messages, the payment handle given
    in the first one only -- its [session_count] ends at 3, one per
    message served, not 1. *)
Theorem session_count_counts_messages :
  let w := run cfg_with_llm
             [scammer_says "s1" "pay to rewards@paytm";
              scammer_says "s1" "hello";
              scammer_says "s1" "are you there"]
             initial_world in
  (map value ∘ upiIds ∘ intelligence <$> (sessions w !! "s1"))
  = Some ["rewards@paytm"] ∧
  (db.session_count <$> db.check_known_scammer "rewards@paytm" (database w))
  = Some 3%Z.
Proof. vm_compute. done. Qed.

(** C7: without a language-model key the classifier is never run. The
    first message of a session is classified HOOK, yet the stage stored
    for the session stays EXPLORATORY. *)
Theorem stage_not_stored_without_llm :
  let msg := "URGENT your account is blocked" in
  let w := run cfg_without_llm [scammer_says "s1" msg] initial_world in
  ∃ after,
    sessions w !! "s1" = Some after ∧
    detect_scam_stage (message_count after) (intelligence after) msg = HOOK ∧
    current_stage after = EXPLORATORY.
Proof. eexists. vm_compute. done. Qed.

(** The simulation endpoint, on the same input and configuration, does
    store the classifier's answer. *)
Lemma simulate_stores_stage_without_llm :
  let msg := "URGENT your account is blocked" in
  let w := run cfg_without_llm
             [(calm_env,
               Simulate {| sim_sessionId := "s1"; scammerMessage := msg;
                           scenarioName := "bank_fraud" |})]
             initial_world in
  current_stage <$> (sessions w !! "sim-s1") = Some HOOK.
Proof. vm_compute. done. Qed.

(** * Further properties of the code *)

(** ** Scammer profiles ([save_intelligence], [check_known_scammer]) *)

Lemma upsert_scammer_other v v' ty t :
  v ≠ v' → db.upsert_scammer v ty t !! v' = t !! v'.
Proof.
  intros Hne. unfold db.upsert_scammer.
  destruct (t !! v); by rewrite lookup_insert_ne.
Qed.

Lemma upsert_scammer_same v ty t :
  db.upsert_scammer v ty t !! v
  = Some {| db.identifier_type :=
              default ty (db.identifier_type <$> t !! v);
            db.session_count :=
              (default 0 (db.session_count <$> t !! v) + 1)%Z |}.
Proof.
  unfold db.upsert_scammer.
  destruct (t !! v) as [row|]; by rewrite lookup_insert_eq.
Qed.


(** In a request the sessions row is there before anything is saved for
    the session: [save_session] writes it, and no write of the engine
    removes a row. *)
Lemma references_session_saved sid row d :
  db.references_session sid (db.save_session sid row d) = true.
Proof.
  unfold db.references_session, db.save_session. cbn [db.sessions].
  apply bool_decide_eq_true. rewrite lookup_insert_eq. by eexists.
Qed.

Lemma references_session_kept_by_message sid sid' sender text d :
  db.references_session sid (db.save_message sid' sender text d)
  = db.references_session sid d.
Proof. done. Qed.

Lemma references_session_kept_by_intelligence sid sid' ty v conf method d :
  db.references_session sid (db.save_intelligence sid' ty v conf method d)
  = db.references_session sid d.
Proof. done. Qed.



Lemma identifier_type_save d c v :
  db.identifier_type <$> db.check_known_scammer v (save_call d c)
  = match db.check_known_scammer v d with
    | Some row => Some (db.identifier_type row)
    | None => if String.eqb (save_value c) v then Some (save_type c) else None
    end.
Proof.
  unfold save_call, db.check_known_scammer, db.save_intelligence.
  cbn [db.scammers].
  destruct (String.eqb_spec (save_value c) v) as [->|Hne].
  - rewrite upsert_scammer_same. by destruct (db.scammers d !! v).
  - rewrite upsert_scammer_other by done. by destruct (db.scammers d !! v).
Qed.

(** For saves made for sessions that have a row, a profile keeps the
    kind it was first saved under: the kind already in the table, or
    else the kind of the first call that saves the identifier; later
    calls under another kind do not change it. *)
Theorem identifier_type_is_first_kind
  (calls : list SaveCall) (d : db.Database) (v : string) :
  sessions_known calls d = true →
  db.identifier_type <$> db.check_known_scammer v (save_calls calls d)
  = match db.check_known_scammer v d with
    | Some row => Some (db.identifier_type row)
    | None => save_type <$> head (saves_of v calls)
    end.
Proof.
  intros _. revert d. induction calls as [|c calls IH]; intros d.
  - cbn. by destruct (db.check_known_scammer v d).
  - unfold save_calls in *. cbn [fold_left]. rewrite IH.
    pose proof (identifier_type_save d c v) as H.
    unfold saves_of. cbn [List.filter].
    destruct (db.check_known_scammer v (save_call d c)) as [row'|];
      cbn in H; destruct (db.check_known_scammer v d) as [row|];
      destruct (String.eqb (save_value c) v); cbn; congruence.
Qed.

Lemma identifier_type_is_first_kind_witness :
  db.identifier_type
    <$> db.check_known_scammer "rewards@paytm"
          (save_calls sample_saves one_session_db)
  = Some "upi_id".
Proof.
  apply (identifier_type_is_first_kind sample_saves one_session_db
           "rewards@paytm").
  vm_compute. reflexivity.
Defined.

(** ** Network links ([build_network_links]) *)

Lemma same_link_key a b sid row :
  db.same_link a b sid row = bool_decide (link_key row = (a, b, sid)).
Proof.
  unfold db.same_link, link_key.
  repeat case_bool_decide; simplify_eq; done.
Qed.

Lemma linked_key sid links p :
  linked sid links p = bool_decide ((p.1, p.2, sid) ∈ map link_key links).
Proof.
  unfold linked. induction links as [|row links IH]; [done|].
  cbn [existsb map]. rewrite IH, same_link_key, <- bool_decide_or.
  apply bool_decide_ext. rewrite elem_of_cons.
  split; (intros [E|?]; [left; by rewrite E|by right]).
Qed.

Lemma insert_link_unique sid links p :
  NoDup (map link_key links) →
  NoDup (map link_key (db.insert_link sid links p)).
Proof.
  intros Hnd. unfold db.insert_link. fold (linked sid links p).
  rewrite linked_key. case_bool_decide as Hin; [done|].
  rewrite map_app. cbn [map]. apply NoDup_app. split; [done|].
  split; [|apply NoDup_singleton].
  intros k Hk Hk'. apply list_elem_of_singleton in Hk'. subst k.
  by apply Hin.
Qed.

Lemma build_network_links_unique sid items d :
  NoDup (map link_key (db.network_links d)) →
  NoDup (map link_key
           (db.network_links (db.build_network_links sid items d))).
Proof.
  unfold db.build_network_links. cbn [db.network_links].
  generalize (db.index_pairs (map fst items)) as ps.
  generalize (db.network_links d) as links.
  intros links ps. revert links.
  induction ps as [|p ps IH]; intros links Hnd; [done|].
  cbn [fold_left]. apply IH. by apply insert_link_unique.
Qed.

(** Whatever sessions are finalized and in whatever order, the table
    never holds two rows with the same source, target and session: the
    [UNIQUE] constraint is kept by the [INSERT OR IGNORE] of every
    [build_network_links] call. *)
Theorem network_links_stay_unique
  (calls : list (string * list (string * string))) :
  NoDup (map link_key (db.network_links (build_calls calls db.empty))).
Proof.
  unfold build_calls.
  assert (H0 : NoDup (map link_key (db.network_links db.empty)))
    by apply NoDup_nil_2.
  revert H0. generalize db.empty as d.
  induction calls as [|c calls IH]; intros d Hd; [done|].
  cbn [fold_left]. apply IH. by apply build_network_links_unique.
Qed.

(** *** The pairs the two loops visit *)

Lemma seq_lookups_map {A B} `{Inhabited A} (f : A → B) (l : list A) :
  seq 0 (length l) ≫= (fun j => [f (l !!! j)]) = map f l.
Proof.
  induction l as [|x l IH]; [done|].
  cbn [length]. rewrite <- cons_seq, <- fmap_S_seq.
  rewrite bind_cons. cbn [app map]. f_equal.
  rewrite <- IH. rewrite list_fmap_bind. done.
Qed.

Lemma index_pairs_cons x l :
  db.index_pairs (x :: l) = map (pair x) l ++ db.index_pairs l.
Proof.
  unfold db.index_pairs. cbn [length].
  rewrite <- cons_seq, bind_cons. f_equal.
  - replace (S (length l) - 1) with (length l) by lia.
    rewrite <- fmap_S_seq, list_fmap_bind.
    apply (seq_lookups_map (pair x) l).
  - rewrite <- fmap_S_seq, list_fmap_bind.
    apply list_bind_ext; [|done]. intros i. cbn.
    rewrite <- fmap_S_seq, list_fmap_bind. done.
Qed.

Lemma index_pairs_members a b l :
  (a, b) ∈ db.index_pairs l → a ∈ l ∧ b ∈ l.
Proof.
  induction l as [|x l IH]; [by intros ?%elem_of_nil|].
  rewrite index_pairs_cons, elem_of_app. intros [Hin|Hin].
  - apply list_elem_of_fmap in Hin as (y & [= -> ->] & Hy).
    split; [by left|by right].
  - destruct (IH Hin). split; by right.
Qed.

Lemma index_pairs_distinct l : NoDup l → NoDup (db.index_pairs l).
Proof.
  induction 1 as [|x l Hx Hl IH]; [apply NoDup_nil_2|].
  rewrite index_pairs_cons. apply NoDup_app. split; [|split; [|done]].
  - apply NoDup_fmap_2; [|done]. by intros ?? [=].
  - intros [a b] Hin Hin'.
    apply list_elem_of_fmap in Hin as (y & [= -> ->] & Hy).
    by apply index_pairs_members in Hin' as [? _].
Qed.

Lemma index_pairs_count l :
  2 * length (db.index_pairs l) = length l * (length l - 1).
Proof.
  induction l as [|x l IH]; [done|].
  rewrite index_pairs_cons, length_app, length_map. cbn [length].
  destruct l as [|y l]; [done|]. cbn [length] in *. nia.
Qed.

Lemma insert_links_fresh sid ps links :
  NoDup ps → Forall (fun p => linked sid links p = false) ps →
  fold_left (db.insert_link sid) ps links
  = links ++ map (fun p => same_session_link sid p.1 p.2) ps.
Proof.
  intros Hnd. revert links.
  induction Hnd as [|p ps Hp Hps IH]; intros links Hfresh.
  - cbn. by rewrite app_nil_r.
  - apply Forall_cons in Hfresh as [Hp' Hfresh]. cbn [fold_left map].
    unfold db.insert_link at 2. fold (linked sid links p). rewrite Hp'.
    fold (same_session_link sid p.1 p.2). rewrite IH.
    + by rewrite <- app_assoc.
    + apply Forall_forall. intros q Hq. rewrite linked_snoc.
      rewrite Forall_forall in Hfresh. rewrite (Hfresh q Hq).
      rewrite bool_decide_eq_false_2; [done|].
      destruct p, q. cbn. intros [= -> ->]. done.
Qed.

(** For pairwise distinct identifiers and a session that has no link
    yet, [build_network_links] appends one row for every pair of
    positions [i < j], in loop order and nothing else: [n (n - 1) / 2]
    rows for [n] identifiers. *)
Theorem build_network_links_all_pairs
  (session_id : string) (intel_items : list (string * string))
  (d : db.Database) :
  NoDup (map fst intel_items) →
  Forall (fun row => db.link_session_id row ≠ session_id)
    (db.network_links d) →
  let added :=
    map (fun p => same_session_link session_id p.1 p.2)
      (db.index_pairs (map fst intel_items)) in
  db.network_links (db.build_network_links session_id intel_items d)
  = db.network_links d ++ added
  ∧ 2 * length added = length intel_items * (length intel_items - 1).
Proof.
  intros Hnd Hfresh added. subst added. split.
  - unfold db.build_network_links. cbn [db.network_links].
    apply insert_links_fresh; [by apply index_pairs_distinct|].
    apply Forall_forall. intros p _. by apply linked_fresh.
  - rewrite length_map, index_pairs_count. by rewrite length_map.
Qed.

Lemma build_network_links_all_pairs_witness :
  let items := [("123456789", "bank_account"); ("rewards@paytm", "upi_id");
                ("+919876543210", "phone"); ("http://pay.example/x", "link")] in
  let added :=
    map (fun p => same_session_link "s1" p.1 p.2)
      (db.index_pairs (map fst items)) in
  db.network_links (db.build_network_links "s1" items db.empty)
  = db.network_links db.empty ++ added
  ∧ 2 * length added = length items * (length items - 1).
Proof.
  apply (build_network_links_all_pairs "s1"
    [("123456789", "bank_account"); ("rewards@paytm", "upi_id");
     ("+919876543210", "phone"); ("http://pay.example/x", "link")] db.empty).
  - cbn. repeat (apply NoDup_cons; split;
      [rewrite ?elem_of_cons, elem_of_nil; intros H;
       repeat destruct H as [H|H]; discriminate || done|]).
    apply NoDup_nil_2.
  - constructor.
Defined.

(** ** One served message, field by field *)

(** What [honeypot_conversation] does to the session of a request it
    serves: every entry of the session the request leaves, in terms of
    the session it found. *)
Lemma honeypot_step cfg env req w resp w' :
  honeypot_conversation cfg env req w = Some (resp, w') →
  let sid := sessionId req in
  let before := session_before w sid in
  let first := bool_decide (message_count before = 0) in
  ∃ after,
    sessions w' = <[sid := after]> (sessions w) ∧
    message_count after = message_count before + 1 ∧
    conversation_history after
    = conversation_history before ++
        [message req;
         {| sender := "user"; text := reply resp; timestamp := now env |}] ∧
    scam_detected after
    = (if first then scored_as_scam (text (message req))
       else scam_detected before) ∧
    scam_confidence after
    = (if first then Some (detect_scam_intent (text (message req))).1.2
       else scam_confidence before) ∧
    intelligence after
    = (if bool_decide (sender (message req) = "scammer")
       then extract_intelligence (now env) (text (message req))
              (intelligence before)
       else intelligence before) ∧
    callbacks w'
    = (if finalization_fires before after
       then callbacks w ++ [final_payload sid after]
       else callbacks w) ∧
    callback_sent after
    = (if finalization_fires before after
       then delivered (callback env)
       else callback_sent before).
Proof.
  unfold honeypot_conversation, session_before, finalization_fires,
    scored_as_scam.
  case_bool_decide as Hkey; [|done].
  set (s0 := default new_session (sessions w !! sessionId req)).
  unfold first_message_detection, extraction_step, generate_agent_response,
    build_agent_prompt, finalization_step, send_final_callback,
    should_finalize_session.
  cbn [message_count receive].
  destruct (detect_scam_intent (text (message req))) as [[sc cf] pats].
  replace (bool_decide (message_count s0 + 1 = 1))
    with (bool_decide (message_count s0 = 0))
    by (apply bool_decide_ext; lia).
  intros Hres. cbn zeta.
  repeat match type of Hres with
  | context [bool_decide ?P] => destruct (bool_decide P) eqn:?
  | context [if ?b then _ else _] => destruct b eqn:?
  | context [match callback ?e with _ => _ end] => destruct (callback e) eqn:?
  end;
  injection Hres as <- <-; eexists;
  (split; [reflexivity|]);
  cbn [scam_detected callback_sent message_count intelligence
       conversation_history scam_confidence persona current_stage
       callback_result receive record_reply set_detection set_intelligence
       set_current_stage set_callback fst snd reply callbacks sessions
       delivered] in *;
  repeat match goal with
    | H : ?x = true |- context [?x] => rewrite H
    | H : ?x = false |- context [?x] => rewrite H
    end;
  cbn [andb negb orb]; rewrite <- ?app_assoc; repeat split; try done.
Qed.

(** The same for the database: the writes of one served message, in
    order. *)
Lemma honeypot_step_db cfg env req w resp w' :
  honeypot_conversation cfg env req w = Some (resp, w') →
  let sid := sessionId req in
  let before := session_before w sid in
  ∃ after,
    sessions w' !! sid = Some after ∧
    database w'
    = (if finalization_fires before after
       then fun d =>
              db.end_session sid (session_row after)
                (db.build_network_links sid
                   (all_items (intelligence after)) d)
       else fun d => d)
        ((if bool_decide (sender (message req) = "scammer")
          then save_all_intelligence sid (intelligence after)
          else fun d => d)
           (db.save_message sid (sender (message req)) (text (message req))
              (db.save_session sid
                 (session_row (receive (message req) before))
                 (database w)))).
Proof.
  unfold honeypot_conversation, session_before, finalization_fires.
  case_bool_decide as Hkey; [|done].
  set (s0 := default new_session (sessions w !! sessionId req)).
  unfold first_message_detection, extraction_step, generate_agent_response,
    build_agent_prompt, finalization_step, send_final_callback,
    should_finalize_session.
  cbn [message_count receive].
  destruct (detect_scam_intent (text (message req))) as [[sc cf] pats].
  intros Hres. cbn zeta.
  repeat match type of Hres with
  | context [bool_decide ?P] => destruct (bool_decide P) eqn:?
  | context [if ?b then _ else _] => destruct b eqn:?
  | context [match callback ?e with _ => _ end] => destruct (callback e) eqn:?
  end;
  injection Hres as <- <-; eexists;
  (split; [cbn [sessions]; apply lookup_insert_eq|]);
  cbn [scam_detected callback_sent message_count intelligence
       conversation_history scam_confidence persona current_stage
       callback_result receive record_reply set_detection set_intelligence
       set_current_stage set_callback fst snd reply callbacks sessions
       database] in *;
  repeat match goal with
    | H : ?x = true |- context [?x] => rewrite H
    | H : ?x = false |- context [?x] => rewrite H
    end;
  cbn [andb negb orb]; try done.
Qed.

(** And for [simulate_conversation], which neither posts callbacks nor
    writes to the database. *)
Lemma simulate_step cfg env req w :
  let sid := "sim-" +:+ sim_sessionId req in
  let before := session_before w sid in
  let first := bool_decide (message_count before = 0) in
  let r := simulate_conversation cfg env req w in
  ∃ after,
    sessions r.2 = <[sid := after]> (sessions w) ∧
    message_count after = message_count before + 1 ∧
    conversation_history after
    = conversation_history before ++
        [{| sender := "scammer"; text := scammerMessage req;
            timestamp := now env |};
         {| sender := "user"; text := reply r.1; timestamp := now env |}] ∧
    scam_detected after
    = (if first then scored_as_scam (scammerMessage req)
       else scam_detected before) ∧
    intelligence after
    = extract_intelligence (now env) (scammerMessage req)
        (intelligence before) ∧
    callback_sent after = callback_sent before ∧
    callbacks r.2 = callbacks w ∧
    database r.2 = database w.
Proof.
  unfold simulate_conversation, session_before, scored_as_scam.
  set (sid := "sim-" +:+ sim_sessionId req).
  set (s0 := default new_session (sessions w !! sid)).
  unfold simulate_detection, generate_agent_response, build_agent_prompt.
  cbn [message_count receive].
  destruct (detect_scam_intent (scammerMessage req)) as [[sc cf] pats].
  replace (bool_decide (message_count s0 + 1 = 1))
    with (bool_decide (message_count s0 = 0))
    by (apply bool_decide_ext; lia).
  cbn zeta.
  repeat match goal with
  | |- context [bool_decide ?P] => destruct (bool_decide P) eqn:?
  | |- context [if ?b then _ else _] => destruct b eqn:?
  end;
  eexists; (split; [reflexivity|]);
  cbn [scam_detected callback_sent message_count intelligence
       conversation_history scam_confidence persona current_stage
       callback_result receive record_reply set_detection set_intelligence
       set_current_stage set_scam_confidence fst snd reply callbacks
       sessions database];
  rewrite <- ?app_assoc; repeat split; done.
Qed.

(** ** Session rows ([save_session], [end_session]) *)

Lemma save_items_tables sid kind items d :
  db.sessions (save_items sid kind items d) = db.sessions d ∧
  db.messages (save_items sid kind items d) = db.messages d ∧
  db.network_links (save_items sid kind items d) = db.network_links d.
Proof.
  unfold save_items. revert d.
  induction items as [|item items IH]; intros d; [done|].
  cbn [fold_left]. destruct (IH (db.save_intelligence sid kind (value item)
    (confidence item) (extractionMethod item) d)) as (-> & -> & ->). done.
Qed.

Lemma save_all_intelligence_tables sid intel d :
  db.sessions (save_all_intelligence sid intel d) = db.sessions d ∧
  db.messages (save_all_intelligence sid intel d) = db.messages d ∧
  db.network_links (save_all_intelligence sid intel d) = db.network_links d.
Proof.
  unfold save_all_intelligence.
  repeat match goal with |- context [save_items ?s ?k ?i ?d] =>
    let H := fresh in
    destruct (save_items_tables s k i d) as (-> & -> & ->) end.
  done.
Qed.

(** After every message [honeypot_conversation] serves, the session's
    row in the [sessions] table reads 'completed' exactly when this
    message finalized the session, and 'active' otherwise -- so the
    message that follows a finalization marks the session active
    again. *)
Theorem session_status_after_message
  (cfg : Config) (env : Env) (req : ConversationRequest) (w w' : World)
  (resp : AgentResponse) :
  honeypot_conversation cfg env req w = Some (resp, w') →
  ∃ after,
    sessions w' !! sessionId req = Some after ∧
    db.status <$> (db.sessions (database w') !! sessionId req)
    = Some (if finalization_fires (session_before w (sessionId req)) after
            then "completed" else "active").
Proof.
  intros Hres. destruct (honeypot_step_db _ _ _ _ _ _ Hres)
    as (after & Hafter & Hdb).
  exists after. split; [done|]. rewrite Hdb.
  set (d1 := db.save_message _ _ _ _).
  assert (H1 : db.status <$> (db.sessions d1 !! sessionId req)
               = Some "active").
  { subst d1. cbn [db.save_message db.save_session db.sessions].
    by rewrite lookup_insert_eq. }
  set (d2 := (if bool_decide (sender (message req) = "scammer")
              then _ else _) d1).
  assert (H2 : db.sessions d2 = db.sessions d1).
  { subst d2. case_bool_decide; [|done].
    apply save_all_intelligence_tables. }
  destruct (finalization_fires _ after).
  - cbn [db.end_session db.build_network_links db.sessions].
    rewrite lookup_alter_eq, H2.
    destruct (db.sessions d1 !! sessionId req); [done|discriminate].
  - by rewrite H2.
Qed.

Lemma session_status_after_message_witness :
  let msg := "urgent: pay to rewards@paytm" in
  let w8 := run cfg_with_llm (replicate 8 (scammer_says "s1" msg))
              initial_world in
  let w9 := run cfg_with_llm (replicate 9 (scammer_says "s1" msg))
              initial_world in
  db.status <$> (db.sessions (database w8) !! "s1") = Some "completed" ∧
  ∃ after,
    sessions w9 !! "s1" = Some after ∧
    db.status <$> (db.sessions (database w9) !! "s1")
    = Some (if finalization_fires (session_before w8 "s1") after
            then "completed" else "active").
Proof.
  intros msg w8 w9. split; [vm_compute; reflexivity|].
  apply (session_status_after_message cfg_with_llm calm_env
           (scammer_request "s1" msg) w8 w9
           {| response_status := "success";
              reply := "Oh no, what should I do?" |}).
  vm_compute. reflexivity.
Defined.

(** ** Sessions do not interfere *)

(** A call leaves every session but its own exactly as it was. *)
Theorem other_sessions_untouched
  (cfg : Config) (env : Env) (c : Call) (w : World) (k : string) :
  call_session c ≠ k →
  sessions (serve cfg w (env, c)) !! k = sessions w !! k.
Proof.
  intros Hne. unfold serve. cbn [fst snd]. destruct c as [req|req].
  - destruct (honeypot_conversation cfg env req w) as [[resp w']|] eqn:E;
      [|done].
    destruct (honeypot_step _ _ _ _ _ _ E) as (after & -> & _).
    by rewrite lookup_insert_ne.
  - destruct (simulate_step cfg env req w) as (after & -> & _).
    by rewrite lookup_insert_ne.
Qed.

Lemma other_sessions_untouched_witness :
  sessions (serve cfg_with_llm
              (run cfg_with_llm [scammer_says "s1" "urgent: your bank"]
                 initial_world)
              (scammer_says "s2" "you won a prize")) !! "s1"
  = sessions (run cfg_with_llm [scammer_says "s1" "urgent: your bank"]
                initial_world) !! "s1".
Proof.
  apply (other_sessions_untouched cfg_with_llm calm_env
           (scammer_says "s2" "you won a prize").2
           (run cfg_with_llm [scammer_says "s1" "urgent: your bank"]
              initial_world) "s1").
  discriminate.
Defined.

Lemma callbacks_for_other cfg env c w k :
  call_session c ≠ k →
  callbacks_for k (serve cfg w (env, c)) = callbacks_for k w.
Proof.
  intros Hne. unfold serve, callbacks_for. cbn [fst snd].
  destruct c as [req|req].
  - destruct (honeypot_conversation cfg env req w) as [[resp w']|] eqn:E;
      [|done].
    destruct (honeypot_step _ _ _ _ _ _ E)
      as (after & _ & _ & _ & _ & _ & _ & -> & _).
    destruct (finalization_fires _ _); [|done].
    rewrite List.filter_app. cbn [List.filter final_payload p_sessionId].
    cbn [call_session] in Hne.
    apply String.eqb_neq in Hne as ->. by rewrite app_nil_r.
  - by destruct (simulate_step cfg env req w)
      as (after & _ & _ & _ & _ & _ & _ & -> & _).
Qed.

(** ** Message bookkeeping *)

(** In every world the service can reach from its start, each stored
    session has served at least one message and its history holds
    exactly two entries per message served: the inbound text and the
    reply. *)
Theorem history_is_twice_message_count
  (cfg : Config) (calls : list (Env * Call)) :
  map_Forall
    (fun _ s =>
       1 ≤ message_count s ∧
       length (conversation_history s) = 2 * message_count s)
    (sessions (run cfg calls initial_world)).
Proof.
  unfold run.
  assert (H0 : map_Forall
    (fun (_ : string) s =>
       1 ≤ message_count s ∧
       length (conversation_history s) = 2 * message_count s)
    (sessions initial_world)) by apply map_Forall_empty.
  revert H0. generalize initial_world as w.
  induction calls as [|[env c] calls IH]; intros w Hw; [done|].
  cbn [fold_left]. apply IH. clear IH.
  assert (Hbefore : ∀ k,
    length (conversation_history (session_before w k))
    = 2 * message_count (session_before w k)).
  { intros k. unfold session_before.
    destruct (sessions w !! k) as [s|] eqn:Hk; [|done].
    by destruct (Hw k s Hk). }
  unfold serve. cbn [fst snd]. destruct c as [req|req].
  - destruct (honeypot_conversation cfg env req w) as [[resp w']|] eqn:E;
      [|done].
    destruct (honeypot_step _ _ _ _ _ _ E) as (after & -> & Hm & Hh & _).
    apply map_Forall_insert_2; [|done].
    rewrite Hh, length_app, Hbefore, Hm. cbn [length]. lia.
  - destruct (simulate_step cfg env req w) as (after & -> & Hm & Hh & _).
    apply map_Forall_insert_2; [|done].
    rewrite Hh, length_app, Hbefore, Hm. cbn [length]. lia.
Qed.

(** ** When no callback is posted *)

Lemma sessions_serve_other cfg env c w k :
  call_session c ≠ k →
  sessions (serve cfg w (env, c)) !! k = sessions w !! k.
Proof.
  intros Hne. unfold serve. cbn [fst snd]. destruct c as [req|req].
  - destruct (honeypot_conversation cfg env req w) as [[resp w']|] eqn:E;
      [|done].
    destruct (honeypot_step _ _ _ _ _ _ E) as (after & -> & _).
    by rewrite lookup_insert_ne.
  - destruct (simulate_step cfg env req w) as (after & -> & _).
    by rewrite lookup_insert_ne.
Qed.

Lemma session_before_stored w k s :
  sessions w !! k = Some s → session_before w k = s.
Proof. unfold session_before. by intros ->. Qed.

(** A call keeps a session quiet -- it posts no callback for it and
    leaves it in a state where the next call will not either -- as soon
    as the gate of the finalization block is closed for the session
    and stays closed: [closed] is such a state of the session. *)
Lemma serve_quiet (closed : Session → Prop) cfg env c w k :
  (∀ before after,
     closed before → 1 ≤ message_count before →
     scam_detected after = scam_detected before →
     finalization_fires before after = false) →
  (∀ before after,
     closed before →
     scam_detected after = scam_detected before →
     callback_sent after = callback_sent before →
     closed after) →
  (∃ s, sessions w !! k = Some s ∧ 1 ≤ message_count s ∧ closed s) →
  (∃ s, sessions (serve cfg w (env, c)) !! k = Some s
        ∧ 1 ≤ message_count s ∧ closed s)
  ∧ callbacks_for k (serve cfg w (env, c)) = callbacks_for k w.
Proof.
  intros Hgate Hkeep (s & Hs & Hm & Hc).
  destruct (decide (call_session c = k)) as [Heq|Hne].
  2:{ rewrite sessions_serve_other, callbacks_for_other by done.
      split; [by exists s|done]. }
  unfold serve, callbacks_for. cbn [fst snd]. destruct c as [req|req];
    cbn [call_session] in Heq.
  - destruct (honeypot_conversation cfg env req w) as [[resp w']|] eqn:E;
      [|split; [by exists s|done]].
    destruct (honeypot_step _ _ _ _ _ _ E)
      as (after & -> & Hm' & _ & Hsc & _ & _ & Hcb & Hsent).
    rewrite Heq in *. rewrite (session_before_stored w k s Hs) in *.
    rewrite bool_decide_eq_false_2 in Hsc by lia.
    rewrite (Hgate s after Hc Hm Hsc) in Hcb, Hsent.
    rewrite Hcb, lookup_insert_eq. split; [|done].
    exists after. split; [done|]. split; [lia|]. by apply (Hkeep s).
  - destruct (simulate_step cfg env req w)
      as (after & -> & Hm' & _ & Hsc & _ & Hsent & -> & _).
    rewrite Heq in *. rewrite (session_before_stored w k s Hs) in *.
    rewrite bool_decide_eq_false_2 in Hsc by lia.
    rewrite lookup_insert_eq. split; [|done].
    exists after. split; [done|]. split; [lia|]. by apply (Hkeep s).
Qed.

Lemma run_quiet (closed : Session → Prop) cfg calls w k :
  (∀ before after,
     closed before → 1 ≤ message_count before →
     scam_detected after = scam_detected before →
     finalization_fires before after = false) →
  (∀ before after,
     closed before →
     scam_detected after = scam_detected before →
     callback_sent after = callback_sent before →
     closed after) →
  (∃ s, sessions w !! k = Some s ∧ 1 ≤ message_count s ∧ closed s) →
  callbacks_for k (run cfg calls w) = callbacks_for k w.
Proof.
  intros Hgate Hkeep. revert w.
  induction calls as [|[env c] calls IH]; intros w Hw; [done|].
  unfold run in *. cbn [fold_left].
  destruct (serve_quiet closed cfg env c w k Hgate Hkeep Hw) as [Hw' <-].
  by apply IH.
Qed.

Lemma unflagged_gate before after :
  scam_detected before = false → 1 ≤ message_count before →
  scam_detected after = scam_detected before →
  finalization_fires before after = false.
Proof. intros Hb _ Ha. unfold finalization_fires. by rewrite Ha, Hb. Qed.

Lemma sent_gate before after :
  callback_sent before = true → 1 ≤ message_count before →
  scam_detected after = scam_detected before →
  finalization_fires before after = false.
Proof.
  intros Hb _ _. unfold finalization_fires. rewrite Hb.
  by rewrite andb_false_r.
Qed.

(** Once the callback of a session has been delivered, no later call
    posts another one for it, whatever the calls are: finalization
    happens at most once per delivered callback. *)
Theorem no_callback_after_delivery
  (cfg : Config) (calls : list (Env * Call)) (w : World) (k : string)
  (s : Session) :
  sessions w !! k = Some s → 1 ≤ message_count s →
  callback_sent s = true →
  callbacks_for k (run cfg calls w) = callbacks_for k w.
Proof.
  intros Hs Hm Hsent.
  apply (run_quiet (fun s => callback_sent s = true)).
  - apply sent_gate.
  - intros before after Hb _ Ha. by rewrite Ha.
  - by exists s.
Qed.

Lemma no_callback_after_delivery_witness :
  let msg := "urgent: pay to rewards@paytm" in
  let w8 := run cfg_with_llm (replicate 8 (scammer_says "s1" msg))
              initial_world in
  length (callbacks_for "s1" w8) = 1 ∧
  callbacks_for "s1"
    (run cfg_with_llm (replicate 12 (scammer_says "s1" msg)) w8)
  = callbacks_for "s1" w8.
Proof.
  intros msg w8. split; [vm_compute; reflexivity|].
  apply (no_callback_after_delivery cfg_with_llm
           (replicate 12 (scammer_says "s1" msg)) w8 "s1"
           (session_before w8 "s1"));
    vm_compute; [reflexivity|lia|reflexivity].
Defined.

(** A session whose first message the scorer does not flag as a scam is
    never finalized: whatever calls follow, on either endpoint, no
    callback is ever posted for it. *)
Theorem no_callback_for_unflagged_session
  (cfg : Config) (env : Env) (c : Call) (calls : list (Env * Call))
  (w : World) :
  sessions w !! call_session c = None →
  accepted cfg c = true →
  scored_as_scam (call_text c) = false →
  callbacks_for (call_session c) (run cfg ((env, c) :: calls) w)
  = callbacks_for (call_session c) w.
Proof.
  intros Hnew Hacc Hscore. unfold run. cbn [fold_left]. fold (run cfg calls).
  assert (Hfirst :
    (∃ s, sessions (serve cfg w (env, c)) !! call_session c = Some s
          ∧ 1 ≤ message_count s ∧ scam_detected s = false)
    ∧ callbacks_for (call_session c) (serve cfg w (env, c))
      = callbacks_for (call_session c) w).
  { unfold serve, callbacks_for. cbn [fst snd].
    destruct c as [req|req]; cbn [call_session call_text] in *.
    - cbn in Hacc. apply bool_decide_eq_true in Hacc.
      destruct (honeypot_conversation_accepts cfg env req w Hacc)
        as [[resp w'] E]. rewrite E.
      destruct (honeypot_step _ _ _ _ _ _ E)
        as (after & -> & Hm' & _ & Hsc & _ & _ & Hcb & _).
      unfold session_before in *. rewrite Hnew in *. cbn in Hm', Hsc.
      rewrite Hscore in Hsc. unfold finalization_fires in Hcb.
      rewrite Hsc in Hcb. cbn in Hcb. rewrite Hcb, lookup_insert_eq.
      split; [|done]. exists after. split; [done|]. split; [lia|done].
    - destruct (simulate_step cfg env req w)
        as (after & -> & Hm' & _ & Hsc & _ & _ & -> & _).
      unfold session_before in *. rewrite Hnew in *. cbn in Hm', Hsc.
      rewrite Hscore in Hsc. rewrite lookup_insert_eq.
      split; [|done]. exists after. split; [done|]. split; [lia|done]. }
  destruct Hfirst as [Hs <-].
  apply (run_quiet (fun s => scam_detected s = false)); [| |done].
  - apply unflagged_gate.
  - intros before after Hb Ha _. by rewrite Ha.
Qed.

Lemma no_callback_for_unflagged_session_witness :
  callbacks_for "s1"
    (run cfg_with_llm
       (scammer_says "s1" "hello, how are you"
        :: replicate 15 (scammer_says "s1" "urgent: pay to rewards@paytm"))
       initial_world)
  = callbacks_for "s1" initial_world.
Proof.
  apply (no_callback_for_unflagged_session cfg_with_llm calm_env
           (scammer_says "s1" "hello, how are you").2
           (replicate 15 (scammer_says "s1" "urgent: pay to rewards@paytm"))
           initial_world); vm_compute; reflexivity.
Defined.

(** ** Only the scammer's messages are mined *)

(** A message whose sender is not 'scammer' is recorded and answered,
    but nothing is extracted from it: the session's intelligence set and
    the [intelligence] and [scammers] tables stay as they were. *)
Theorem only_scammer_messages_are_mined
  (cfg : Config) (env : Env) (req : ConversationRequest) (w w' : World)
  (resp : AgentResponse) :
  honeypot_conversation cfg env req w = Some (resp, w') →
  sender (message req) ≠ "scammer" →
  intelligence <$> (sessions w' !! sessionId req)
  = Some (intelligence (session_before w (sessionId req))) ∧
  db.scammers (database w') = db.scammers (database w) ∧
  db.intelligence (database w') = db.intelligence (database w).
Proof.
  intros Hres Hsender.
  destruct (honeypot_step _ _ _ _ _ _ Hres)
    as (after & Hs & _ & _ & _ & _ & Hi & _).
  destruct (honeypot_step_db _ _ _ _ _ _ Hres) as (after' & _ & Hdb).
  rewrite bool_decide_eq_false_2 in Hi, Hdb by done.
  split; [by rewrite Hs, lookup_insert_eq, <- Hi|].
  rewrite Hdb. by destruct (finalization_fires _ after').
Qed.

Lemma only_scammer_messages_are_mined_witness :
  let req := {| x_api_key := Some "sk_honeypot_2024_secure_key";
                sessionId := "s1";
                message := {| sender := "user";
                              text := "my account is 123456789012";
                              timestamp := 1700000000000 |};
                metadata := None |} in
  let w' := serve cfg_with_llm initial_world (calm_env, Honeypot req) in
  intelligence <$> (sessions w' !! "s1")
  = Some (intelligence (session_before initial_world "s1")) ∧
  db.scammers (database w') = db.scammers (database initial_world) ∧
  db.intelligence (database w') = db.intelligence (database initial_world).
Proof.
  intros req w'.
  apply (only_scammer_messages_are_mined cfg_with_llm calm_env req
           initial_world w'
           {| response_status := "success";
              reply := "Oh no, what should I do?" |});
    [vm_compute; reflexivity|discriminate].
Defined.

(** ** The intelligence set only grows, without duplicates *)

Lemma store_all_prefix accept make found items :
  items `prefix_of` store_all accept make found items.
Proof.
  revert items. induction found as [|m found IH]; intros items; [done|].
  cbn [store_all fold_left]. etrans; [|apply IH].
  unfold store_new. destruct (_ && _); [|done]. by apply prefix_app_r.
Qed.

Lemma store_keyword_prefix tl kws k : kws `prefix_of` store_keyword tl kws k.
Proof.
  unfold store_keyword. destruct (_ && _); [|done]. by apply prefix_app_r.
Qed.

Lemma store_keywords_prefix tl kws : kws `prefix_of` store_keywords tl kws.
Proof.
  unfold store_keywords. generalize SCAM_PATTERNS as entries.
  intros entries. revert kws.
  induction entries as [|e entries IH]; intros kws; [done|].
  cbn [fold_left]. etrans; [|apply IH]. generalize (e.2) as l.
  intros l. revert kws. induction l as [|k l IHl]; intros kws; [done|].
  cbn [fold_left]. etrans; [apply store_keyword_prefix|apply IHl].
Qed.

(** Extraction never removes, changes or reorders what the set already
    holds: in every category the old list is a prefix of the new one. *)
Theorem extraction_only_appends
  (now : Z) (text : string) (S : ExtractedIntelligence) :
  let S' := extract_intelligence now text S in
  bankAccounts S `prefix_of` bankAccounts S' ∧
  upiIds S `prefix_of` upiIds S' ∧
  phoneNumbers S `prefix_of` phoneNumbers S' ∧
  phishingLinks S `prefix_of` phishingLinks S' ∧
  suspiciousKeywords S `prefix_of` suspiciousKeywords S'.
Proof.
  unfold extract_intelligence.
  cbn [bankAccounts upiIds phoneNumbers phishingLinks suspiciousKeywords].
  split; [apply store_all_prefix|].
  split; [apply store_all_prefix|].
  split; [apply store_all_prefix|].
  split; [apply store_all_prefix|].
  apply store_keywords_prefix.
Qed.

Lemma has_value_elem v items :
  has_value v items = true ↔ v ∈ map value items.
Proof.
  unfold has_value. rewrite existsb_exists, list_elem_of_fmap. split.
  - intros (item & Hin & Heq%String.eqb_eq). exists item.
    split; [done|]. by apply list_elem_of_In.
  - intros (item & -> & Hin). exists item. split.
    + by apply list_elem_of_In.
    + apply String.eqb_refl.
Qed.

Lemma store_all_no_duplicates accept make found items :
  (∀ m, value (make m) = m) →
  NoDup (map value items) →
  NoDup (map value (store_all accept make found items)).
Proof.
  intros Hmake. revert items.
  induction found as [|m found IH]; intros items Hnd; [done|].
  cbn [store_all fold_left]. apply IH. unfold store_new.
  destruct (accept m); cbn [andb]; [|done].
  destruct (has_value m items) eqn:Hm; cbn [negb]; [done|].
  rewrite map_app. cbn [map]. rewrite Hmake.
  apply NoDup_app. split; [done|]. split; [|apply NoDup_singleton].
  intros v Hv ->%list_elem_of_singleton.
  apply has_value_elem in Hv. congruence.
Qed.

Lemma store_keywords_no_duplicates tl kws :
  NoDup kws → NoDup (store_keywords tl kws).
Proof.
  unfold store_keywords. generalize SCAM_PATTERNS as entries.
  intros entries. revert kws.
  induction entries as [|e entries IH]; intros kws Hnd; [done|].
  cbn [fold_left]. apply IH. revert Hnd. generalize (e.2) as l.
  intros l. revert kws. induction l as [|k l IHl]; intros kws Hnd; [done|].
  cbn [fold_left]. apply IHl. unfold store_keyword.
  destruct (Str.contains k tl); cbn [andb]; [|done].
  case_bool_decide as Hk; cbn [negb]; [done|].
  apply NoDup_app. split; [done|]. split; [|apply NoDup_singleton].
  by intros v Hv ->%list_elem_of_singleton.
Qed.

Lemma extract_intelligence_no_duplicates now text S :
  no_duplicates S → no_duplicates (extract_intelligence now text S).
Proof.
  intros (Hb & Hu & Hp & Hl & Hk). unfold no_duplicates, extract_intelligence.
  cbn [bankAccounts upiIds phoneNumbers phishingLinks suspiciousKeywords].
  split; [by apply store_all_no_duplicates|].
  split; [by apply store_all_no_duplicates|].
  split; [by apply store_all_no_duplicates|].
  split; [by apply store_all_no_duplicates|].
  by apply store_keywords_no_duplicates.
Qed.

(** In every world the service can reach from its start, no session
    holds a value twice in a category, nor a keyword twice: uniqueness
    by kind and exact value is an invariant of the stored sets. *)
Theorem stored_values_are_unique
  (cfg : Config) (calls : list (Env * Call)) :
  map_Forall (fun _ s => no_duplicates (intelligence s))
    (sessions (run cfg calls initial_world)).
Proof.
  unfold run.
  assert (H0 : map_Forall (fun (_ : string) s => no_duplicates (intelligence s))
                 (sessions initial_world)) by apply map_Forall_empty.
  revert H0. generalize initial_world as w.
  induction calls as [|[env c] calls IH]; intros w Hw; [done|].
  cbn [fold_left]. apply IH. clear IH.
  assert (Hbefore : ∀ k, no_duplicates (intelligence (session_before w k))).
  { intros k. unfold session_before.
    destruct (sessions w !! k) as [s|] eqn:Hk; [by apply (Hw k s)|].
    cbn. repeat split; apply NoDup_nil_2. }
  unfold serve. cbn [fst snd]. destruct c as [req|req].
  - destruct (honeypot_conversation cfg env req w) as [[resp w']|] eqn:E;
      [|done].
    destruct (honeypot_step _ _ _ _ _ _ E)
      as (after & -> & _ & _ & _ & _ & Hi & _).
    apply map_Forall_insert_2; [|done]. rewrite Hi.
    case_bool_decide; [|done]. by apply extract_intelligence_no_duplicates.
  - destruct (simulate_step cfg env req w)
      as (after & -> & _ & _ & _ & Hi & _).
    apply map_Forall_insert_2; [|done]. rewrite Hi.
    by apply extract_intelligence_no_duplicates.
Qed.
